(** * Distributed extractive-summarization training launcher

    A shallow embedding of
    [examples/text_summarization/extractive_summarization_cnndm_distributed_train.py]
    and the properties of its orchestration: rank and world-size derivation,
    barrier placement, data acquisition, the arguments handed to [fit], the
    rank-0 checkpoint and prediction section, the summary file and the
    behaviour on errors.

    The script is glue code: every interesting operation is a call into
    torch, torch.distributed or utils_nlp.  Such a call is an _event_; what it
    returns, and whether it raises, is decided by an arbitrary environment
    (an [oracle]) that sees the whole history.  The script itself is written
    in a small state-and-exception monad that records the events.

    Conventions of the model:
    - a preprocessed dataset is a Python list of samples, so that
      [ext_sum_test[0:TOP_N]] is list slicing;
    - floats are the exact rationals they denote: rounding is not modelled,
      but a quotient out of the range of a double raises [OverflowError], as
      in Python;
    - [print] appends to the console and never raises; [time.time()] is a
      library call;
    - [files] in the state of a process is not the file system: it records,
      per path, what the script itself has written through its own file
      objects ([open], [write]).  What a library call does to the disk (the
      checkpoint of [save_model], the periodic checkpoints of [fit], the
      corpus download, the directories of [makedirs]) is the library's and
      shows only as the event of the call; likewise [environ] records the
      assignments the script makes to [os.environ];
    - the construction of the argument parser and the [sys.path] set-up at
      import are not part of the model; [parse_args] is a library call that
      returns the namespace. *)

From Stdlib Require Import ZArith QArith List Ascii String Bool Lia.
From stdpp Require Import base gmap strings list pretty.

Local Open Scope string_scope.
Local Open Scope list_scope.
Local Open Scope Z_scope.

(* ===================================================================== *)
(** ** Python primitives used by the script *)
(* ===================================================================== *)

(** A Python number as the script meets it: an [int], or a [float] kept as
    the exact rational it denotes ([1e1] is [10], [5e2] is [500]; the
    rounding of machine floats is not modelled). *)
Inductive pynum : Type :=
| PyInt (z : Z)
| PyFloat (q : Q).

Definition num_value (x : pynum) : Q :=
  match x with
  | PyInt z => inject_Z z
  | PyFloat q => q
  end.

(** Python exceptions: the two the script's own arithmetic can raise, and
    those coming out of a library call, told apart by a label. *)
Inductive exn : Type :=
| ZeroDivisionError
| OverflowError
| LibraryError (what : string).

Inductive result (A : Type) : Type :=
| Ok (a : A)
| Raised (e : exn).
Arguments Ok {A} a.
Arguments Raised {A} e.

(** The least magnitude that no longer rounds to a double: the largest
    double is [2^1024 - 2^971], and rounding is to nearest, ties to even, so
    everything from [2^1024 - 2^970] on rounds beyond it. *)
Definition DBL_OVERFLOW : Z := 2 ^ 1024 - 2 ^ 970.

(** [float(d)] raises [OverflowError] ("int too large to convert to
    float"). *)
Definition too_large_for_float (d : Z) : bool := DBL_OVERFLOW <=? Z.abs d.

(** [z / d] on two ints raises [OverflowError] ("integer division result
    too large for a float") when the quotient is out of the range of a
    double. *)
Definition quotient_too_large (z d : Z) : bool := DBL_OVERFLOW * Z.abs d <=? Z.abs z.

(** [x / d], true division by an int; the result is always a float.
    - [int / int]: [ZeroDivisionError] on a zero divisor, whatever the
      dividend; otherwise [OverflowError] when the quotient does not fit a
      double;
    - [float / int]: the divisor is converted to a float first, which raises
      [OverflowError] when it does not fit; then [ZeroDivisionError] on a zero
      divisor.  The quotient of a float by a non-zero int is never larger
      than the float. *)
Definition truediv (x : pynum) (d : Z) : result pynum :=
  match x with
  | PyInt z =>
      if d =? 0 then Raised ZeroDivisionError
      else if quotient_too_large z d then Raised OverflowError
      else Ok (PyFloat (Qdiv (inject_Z z) (inject_Z d)))
  | PyFloat q =>
      if too_large_for_float d then Raised OverflowError
      else if d =? 0 then Raised ZeroDivisionError
      else Ok (PyFloat (Qdiv q (inject_Z d)))
  end.

(** [x in l] on a list of ints. *)
Definition py_in (x : Z) (l : list Z) : bool := existsb (Z.eqb x) l.

(** [str.lower] on the ASCII range (the script only compares the result with
    the ASCII literal ["false"]). *)
Definition lower_ascii (c : ascii) : ascii :=
  let n := nat_of_ascii c in
  if ((65 <=? n) && (n <=? 90))%nat then ascii_of_nat (n + 32) else c.

Fixpoint lower (s : string) : string :=
  match s with
  | EmptyString => EmptyString
  | String c r => String (lower_ascii c) (lower r)
  end.

Definition starts_with_sep (s : string) : bool :=
  match s with
  | String c _ => Ascii.eqb c "/"
  | EmptyString => false
  end.

Fixpoint ends_with_sep (s : string) : bool :=
  match s with
  | EmptyString => false
  | String c EmptyString => Ascii.eqb c "/"
  | String _ r => ends_with_sep r
  end.

(** [os.path.join(a, b)] of posixpath, for two components. *)
Definition os_path_join (a b : string) : string :=
  if starts_with_sep b then b
  else if String.eqb a EmptyString || ends_with_sep a then a +:+ b
  else a +:+ "/" +:+ b.

(** [seq[start:stop]] on a list: a negative index counts from the end, and
    both ends are clamped to [0 .. len]. *)
Definition slice_index {A} (l : list A) (i : Z) : nat :=
  let len := Z.of_nat (length l) in
  let j := if i <? 0 then i + len else i in
  Z.to_nat (Z.min (Z.max j 0) len).

Definition py_slice {A} (l : list A) (start stop : Z) : list A :=
  let s := slice_index l start in
  let e := slice_index l stop in
  firstn (e - s)%nat (skipn s l).

(** The newline character and the line written for one item by
    ["%s\n" % item]. *)
Definition newline : string := String (ascii_of_nat 10) EmptyString.

Definition format_line (item : string) : string := item +:+ newline.

(** The lines of a text file: every line runs up to and excluding its
    ["\n"]; characters after the last ["\n"] form a last, unterminated
    line. *)
Fixpoint file_lines_from (cur : string) (s : string) : list string :=
  match s with
  | EmptyString => if String.eqb cur EmptyString then [] else [cur]
  | String c r =>
      if Ascii.eqb c (ascii_of_nat 10)
      then cur :: file_lines_from EmptyString r
      else file_lines_from (cur +:+ String c EmptyString) r
  end.

Definition file_lines (s : string) : list string := file_lines_from EmptyString s.

Fixpoint has_newline (s : string) : bool :=
  match s with
  | EmptyString => false
  | String c r => Ascii.eqb c (ascii_of_nat 10) || has_newline r
  end.

(* ===================================================================== *)
(** ** Command line *)
(* ===================================================================== *)

(** The namespace produced by [parser.parse_args()]. *)
Module Args.
Record t : Type := {
  rank : Z;
  dist_url : string;
  node_count : Z;
  cache_dir : string;
  data_dir : string;
  output_dir : string;
  quick_run : string;
  model_name : string;
  encoder : string;
  max_pos_length : Z;
  learning_rate : Q;
  batch_size : Z;
  max_steps : pynum;
  warmup_steps : pynum;
  top_n : Z;
  summary_filename : string;
  model_filename : string;
  train_file : option string;
  test_file : option string
}.

(** The defaults of the parser.  argparse converts string defaults only,
    so the float literals [1e4] and [5e3] stay floats. *)
Definition defaults : t := {|
  rank := 0;
  dist_url := "tcp://127.0.0.1:29501";
  node_count := 1;
  cache_dir := "./";
  data_dir := "./";
  output_dir := "./";
  quick_run := "false";
  model_name := "distilbert-base-uncased";
  encoder := "transformer";
  max_pos_length := 512;
  learning_rate := (1 # 1000)%Q;
  batch_size := 5;
  max_steps := PyFloat (inject_Z 10000);
  warmup_steps := PyFloat (inject_Z 5000);
  top_n := 3;
  summary_filename := "generated_summaries.txt";
  model_filename := "dist_extsum_model.pt";
  train_file := None;
  test_file := None
|}.

(** What the [choices] of the parser guarantee after [type=str.lower]. *)
Definition parsed (a : t) : Prop :=
  (quick_run a = "true" \/ quick_run a = "false") /\
  In (encoder a) ["baseline"; "classifier"; "transformer"; "rnn"].
End Args.

(** How often the statistics reports show up in training, unit is step. *)
Definition REPORT_EVERY : Z := 100.
Definition SAVE_EVERY : Z := 1000.

(* ===================================================================== *)
(** ** The imported libraries *)
(* ===================================================================== *)

(** The objects owned by utils_nlp and torch: the raw corpus splits, a
    preprocessed sample (a preprocessed dataset is a list of them), the
    processor and the summarizer, and the [processor] attribute of a
    summarizer. *)
Class Externals : Type := {
  raw_dataset : Type;
  sample : Type;
  ExtSumProcessor : Type;
  ExtractiveSummarizer : Type;
  processor : ExtractiveSummarizer -> ExtSumProcessor
}.

(** Values that reach the console through [print(fmt.format(...))]. *)
Inductive pyval : Type :=
| VStr (s : string)
| VInt (z : Z)
| VNum (x : pynum)
| VFloat (q : Q)
| VNone.

Definition val_of_getenv (o : option string) : pyval :=
  match o with
  | Some s => VStr s
  | None => VNone
  end.

(** The arguments of [summarizer.fit]: the training set, its first positional
    argument, and the keyword arguments in the order the call lists them. *)
Module Fit.
Record kwargs (sample : Type) : Type := {
  train_dataset : list sample;
  num_gpus : Z;
  batch_size : Z;
  gradient_accumulation_steps : Z;
  max_steps : pynum;
  learning_rate : Q;
  warmup_steps : pynum;
  verbose : bool;
  report_every : Z;
  clip_grad_norm : bool;
  local_rank : Z;
  save_every : Z;
  world_size : Z;
  rank : Z
}.
Arguments train_dataset {sample} _.
Arguments num_gpus {sample} _.
Arguments batch_size {sample} _.
Arguments gradient_accumulation_steps {sample} _.
Arguments max_steps {sample} _.
Arguments learning_rate {sample} _.
Arguments warmup_steps {sample} _.
Arguments verbose {sample} _.
Arguments report_every {sample} _.
Arguments clip_grad_norm {sample} _.
Arguments local_rank {sample} _.
Arguments save_every {sample} _.
Arguments world_size {sample} _.
Arguments rank {sample} _.
End Fit.

(* ===================================================================== *)
(** ** Events, environment and the monad of the script *)
(* ===================================================================== *)

Section Script.
Context {ext : Externals}.

(** One constructor per library call of the script, indexed by the type of
    what the call returns: [torch.cuda.device_count()],
    [parser.parse_args()], [os.makedirs], the two constructors of
    utils_nlp, [mp.spawn(main_worker, ...)], [init_process_group],
    [barrier], [time.time()], the dataset constructor,
    [processor.preprocess], [torch.load], [summarizer.fit], [save_model],
    [predict], [open], [filehandle.write], the closing of the file at the end
    of the [with] block, and [dist.destroy_process_group()].  A file object
    is identified by the path it was opened on. *)
Inductive call : Type -> Type :=
| DeviceCount : call Z
| ParseArgs : call Args.t
| Makedirs (path : string) (exist_ok : bool) : call unit
| NewExtSumProcessor (model_name : string) : call ExtSumProcessor
| NewExtractiveSummarizer (p : ExtSumProcessor) (model_name encoder : string)
    (max_pos_length : Z) (cache_dir : string) : call ExtractiveSummarizer
| Spawn (nprocs : Z) (ngpus_per_node : Z) (summarizer : ExtractiveSummarizer)
    (args : Args.t) : call unit
| InitProcessGroup (backend init_method : string) (world_size rank : Z) : call unit
| Barrier : call unit
| Time : call Q
| CNNDMSummarizationDataset (top_n : Z) (local_cache_path : string)
    : call (raw_dataset * raw_dataset)
| Preprocess (p : ExtSumProcessor) (d : raw_dataset) (oracle_mode : string)
    : call (list sample)
| TorchLoad (path : string) : call (list sample)
| SummarizerFit (summarizer : ExtractiveSummarizer) (kw : Fit.kwargs sample) : call unit
| SaveModel (summarizer : ExtractiveSummarizer) (path : string) : call unit
| Predict (summarizer : ExtractiveSummarizer) (test : list sample) (batch_size : Z)
    : call (list string)
| Open (path mode : string) : call unit
| Write (filehandle : string) (data : string) : call unit
| Close (filehandle : string) : call unit
| DestroyProcessGroup : call unit.

(** An event: a call together with its outcome. *)
Inductive event : Type :=
| Ev {A : Type} (c : call A) (r : result A).

(** The environment answers every call, knowing all earlier events. *)
Definition oracle : Type := forall A : Type, list event -> call A -> result A.

(** What the script does in a run: the library calls so far, the lines
    sent to the console (format string and arguments), the text it wrote
    itself through [open]/[write], per path, and the environment variables
    as the script set or found them.  [files] is the script's own output,
    not the file system: what a library call writes (a checkpoint, a
    download, a directory) is not recorded here. *)
Record state : Type := {
  trace : list event;
  stdout : list (string * list pyval);
  files : gmap string string;
  environ : gmap string string
}.

Definition M (A : Type) : Type := oracle -> state -> state * result A.

Definition ret {A} (a : A) : M A := fun _ st => (st, Ok a).

Definition bind {A B} (m : M A) (f : A -> M B) : M B :=
  fun o st =>
    match m o st with
    | (st', Ok a) => f a o st'
    | (st', Raised e) => (st', Raised e)
    end.

#[export] Instance M_ret : MRet M := fun A a => ret a.
#[export] Instance M_bind : MBind M := fun A B f m => bind m f.

(** A value computed by the script itself, which may have raised. *)
Definition lift {A} (r : result A) : M A := fun _ st => (st, r).

(** A library call: ask the environment and record the event.  The call's
    own effects on the disk or the process are the environment's; of the
    state of the script it changes the history only. *)
Definition do_call {A} (c : call A) : M A :=
  fun o st =>
    let r := o A (trace st) c in
    ({| trace := trace st ++ [Ev c r]; stdout := stdout st;
        files := files st; environ := environ st |}, r).

(** [with ... :] around a body: the clean-up runs however the body ends; the
    body's exception goes on afterwards, unless the clean-up raises one of
    its own. *)
Definition finally {A} (body : M A) (on_exit : M unit) : M A :=
  fun o st =>
    match body o st with
    | (st', r) =>
        match on_exit o st' with
        | (st'', Ok _) => (st'', r)
        | (st'', Raised e) => (st'', Raised e)
        end
    end.

Definition print (fmt : string) (vals : list pyval) : M unit :=
  fun _ st =>
    ({| trace := trace st; stdout := stdout st ++ [(fmt, vals)];
        files := files st; environ := environ st |}, Ok tt).

Definition getenv (name : string) : M (option string) :=
  fun _ st => (st, Ok (environ st !! name)).

Definition setenv (name value : string) : M unit :=
  fun _ st =>
    ({| trace := trace st; stdout := stdout st; files := files st;
        environ := <[name := value]> (environ st) |}, Ok tt).

Definition update_files (f : gmap string string -> gmap string string) : M unit :=
  fun _ st =>
    ({| trace := trace st; stdout := stdout st; files := f (files st);
        environ := environ st |}, Ok tt).

End Script.

(* ===================================================================== *)
(** ** The script *)
(* ===================================================================== *)

Section Program.
Context {ext : Externals}.

(** [open(path, mode)]: mode ["w"] creates the file or empties it. *)
Definition py_open (path mode : string) : M string :=
  do_call (Open path mode) ;;
  update_files (fun fs => if String.eqb mode "w" then <[path := EmptyString]> fs else fs) ;;
  ret path.

(** [filehandle.write(data)] appends to what the file holds; a write that
    raises leaves it as it was. *)
Definition py_write (filehandle data : string) : M unit :=
  do_call (Write filehandle data) ;;
  update_files (fun fs => <[filehandle := default EmptyString (fs !! filehandle) +:+ data]> fs).

Definition py_close (filehandle : string) : M unit :=
  do_call (Close filehandle).

(** Module level, lines 26-28. *)
Definition module_import : M unit :=
  setenv "NCCL_IB_DISABLE" "0" ;;
  n ← do_call DeviceCount;
  setenv "OMP_NUM_THREADS" (pretty n) ;;
  setenv "KMP_AFFINITY" "verbose".

Definition cleanup : M unit :=
  do_call DestroyProcessGroup.

(** The [for item in list_items] loop. *)
Fixpoint write_items (filehandle : string) (list_items : list string) : M unit :=
  match list_items with
  | [] => ret tt
  | item :: rest =>
      py_write filehandle (format_line item) ;;
      write_items filehandle rest
  end.

Definition _write_list_to_file (list_items : list string) (filename : string) : M unit :=
  filehandle ← py_open filename "w";
  finally (write_items filehandle list_items) (py_close filehandle).

Definition main_worker (local_rank ngpus_per_node : Z)
    (summarizer : ExtractiveSummarizer) (args : Args.t) : M unit :=
  let rank := Args.rank args * ngpus_per_node + local_rank in
  let world_size := Args.node_count args * ngpus_per_node in
  print "init_method: {}" [VStr (Args.dist_url args)] ;;
  print "ngpus_per_node: {}" [VInt ngpus_per_node] ;;
  print "rank: {}" [VInt rank] ;;
  print "local_rank: {}" [VInt local_rank] ;;
  print "world_size: {}" [VInt world_size] ;;
  do_call (InitProcessGroup "nccl" (Args.dist_url args) world_size rank) ;;
  let full_run := String.eqb (lower (Args.quick_run args)) "false" in
  let MAX_STEPS := if full_run then Args.max_steps args else PyFloat (inject_Z 10) in
  let WARMUP_STEPS := if full_run then Args.warmup_steps args else PyFloat (inject_Z 500) in
  let TOP_N := if full_run then -1 else 10 in
  print "max steps is {}" [VNum MAX_STEPS] ;;
  print "warmup steps is {}" [VNum WARMUP_STEPS] ;;
  (if negb (py_in local_rank [-1; 0]) then do_call Barrier else ret tt) ;;
  '(ext_sum_train, ext_sum_test) ←
    match Args.train_file args, Args.test_file args with
    | Some train_file, Some test_file =>
        ext_sum_train ← do_call (TorchLoad (os_path_join (Args.data_dir args) train_file));
        ext_sum_test ← do_call (TorchLoad (os_path_join (Args.data_dir args) test_file));
        ret (ext_sum_train, ext_sum_test)
    | _, _ =>
        '(train_dataset, test_dataset) ←
          do_call (CNNDMSummarizationDataset TOP_N (Args.data_dir args));
        ext_sum_train ← do_call (Preprocess (processor summarizer) train_dataset "greedy");
        ext_sum_test ← do_call (Preprocess (processor summarizer) test_dataset "greedy");
        ret (ext_sum_train, ext_sum_test)
    end;
  (if py_in local_rank [-1; 0] then do_call Barrier else ret tt) ;;
  start ← do_call Time;
  let save_every := if negb (py_in rank [-1; 0]) then -1 else SAVE_EVERY in
  print "starting training" [] ;;
  scaled_max_steps ← lift (truediv MAX_STEPS world_size);
  do_call (SummarizerFit summarizer {|
    Fit.train_dataset := ext_sum_train;
    Fit.num_gpus := world_size;
    Fit.batch_size := Args.batch_size args;
    Fit.gradient_accumulation_steps := 1;
    Fit.max_steps := scaled_max_steps;
    Fit.learning_rate := Args.learning_rate args;
    Fit.warmup_steps := WARMUP_STEPS;
    Fit.verbose := true;
    Fit.report_every := REPORT_EVERY;
    Fit.clip_grad_norm := false;
    Fit.local_rank := local_rank;
    Fit.save_every := save_every;
    Fit.world_size := world_size;
    Fit.rank := rank
  |}) ;;
  end_ ← do_call Time;
  print "rank {0}, duration {1:.6f}s" [VInt rank; VFloat (Qminus end_ start)] ;;
  do_call Barrier ;;
  (if py_in local_rank [-1; 0] && (Args.rank args =? 0) then
     do_call (SaveModel summarizer
                (os_path_join (Args.output_dir args) (Args.model_filename args))) ;;
     prediction ← do_call (Predict summarizer (py_slice ext_sum_test 0 TOP_N) 128);
     print "writing generated summaries" [] ;;
     _write_list_to_file prediction
       (os_path_join (Args.output_dir args) (Args.summary_filename args))
   else ret tt) ;;
  cleanup.

(** [mp.spawn(fn, nprocs, args)] starts [nprocs] processes; process [i]
    runs [fn(i, *args)]. *)
Definition spawned_workers (nprocs ngpus_per_node : Z)
    (summarizer : ExtractiveSummarizer) (args : Args.t) : list (M unit) :=
  map (fun i => main_worker (Z.of_nat i) ngpus_per_node summarizer args)
      (seq 0 (Z.to_nat nprocs)).

Definition main : M unit :=
  v ← getenv "NCCL_IB_DISABLE";
  print "NCCL_IB_DISABLE: {}" [val_of_getenv v] ;;
  args ← do_call ParseArgs;
  print "quick_run is {}" [VStr (Args.quick_run args)] ;;
  print "output_dir is {}" [VStr (Args.output_dir args)] ;;
  print "data_dir is {}" [VStr (Args.data_dir args)] ;;
  print "cache_dir is {}" [VStr (Args.cache_dir args)] ;;
  do_call (Makedirs (Args.output_dir args) true) ;;
  do_call (Makedirs (Args.cache_dir args) true) ;;
  ngpus_per_node ← do_call DeviceCount;
  processor ← do_call (NewExtSumProcessor (Args.model_name args));
  summarizer ← do_call (NewExtractiveSummarizer processor (Args.model_name args)
                           (Args.encoder args) (Args.max_pos_length args)
                           (Args.cache_dir args));
  do_call (Spawn ngpus_per_node ngpus_per_node summarizer args).

End Program.

(* ===================================================================== *)
(** ** Observing a run *)
(* ===================================================================== *)

Section Observations.
Context {ext : Externals}.

(** The events a computation adds to the history, and how it ends. *)
Definition emitted {A} (m : M A) (o : oracle) (st : state) : list event :=
  skipn (length (trace st)) (trace (m o st).1).

Definition outcome {A} (m : M A) (o : oracle) (st : state) : result A :=
  (m o st).2.

Definition ev_exn (ev : event) : option exn :=
  match ev with
  | Ev _ (Ok _) => None
  | Ev _ (Raised e) => Some e
  end.

Definition ev_succeeded (ev : event) : bool :=
  match ev_exn ev with
  | None => true
  | Some _ => false
  end.

Definition is_barrier (ev : event) : bool :=
  match ev with
  | Ev Barrier _ => true
  | _ => false
  end.

Definition is_init (ev : event) : bool :=
  match ev with
  | Ev (InitProcessGroup _ _ _ _) _ => true
  | _ => false
  end.

Definition is_destroy (ev : event) : bool :=
  match ev with
  | Ev DestroyProcessGroup _ => true
  | _ => false
  end.

Definition is_spawn (ev : event) : bool :=
  match ev with
  | Ev (Spawn _ _ _ _) _ => true
  | _ => false
  end.

(** Deserializing a stored dataset. *)
Definition is_load (ev : event) : bool :=
  match ev with
  | Ev (TorchLoad _) _ => true
  | _ => false
  end.

(** Building the raw corpus and preprocessing it. *)
Definition is_derive (ev : event) : bool :=
  match ev with
  | Ev (CNNDMSummarizationDataset _ _) _ => true
  | Ev (Preprocess _ _ _) _ => true
  | _ => false
  end.

Definition is_data (ev : event) : bool := is_load ev || is_derive ev.

Definition is_write (ev : event) : bool :=
  match ev with
  | Ev (Write _ _) _ => true
  | _ => false
  end.

Definition is_close (ev : event) : bool :=
  match ev with
  | Ev (Close _) _ => true
  | _ => false
  end.

(** The checkpoint and prediction section: saving the model, predicting,
    and the file operations of [_write_list_to_file]. *)
Definition is_final (ev : event) : bool :=
  match ev with
  | Ev (SaveModel _ _) _ => true
  | Ev (Predict _ _ _) _ => true
  | Ev (Open _ _) _ => true
  | Ev (Write _ _) _ => true
  | Ev (Close _) _ => true
  | _ => false
  end.

(** Before the rank-0 section: neither its calls nor the tear-down. *)
Definition is_earlier (ev : event) : bool :=
  negb (is_final ev) && negb (is_destroy ev).

(** The [mp.spawn] calls of a run: [nprocs] and the arguments handed to
    every worker. *)
Definition spawn_call (ev : event) : option (Z * Z * ExtractiveSummarizer * Args.t) :=
  match ev with
  | Ev (Spawn nprocs ngpus_per_node summarizer args) _ =>
      Some (nprocs, ngpus_per_node, summarizer, args)
  | _ => None
  end.

Definition spawn_calls (evs : list event) : list (Z * Z * ExtractiveSummarizer * Args.t) :=
  omap spawn_call evs.

(** The [predict] calls of a run: summarizer, documents, batch size and
    what came back. *)
Definition predict_call (ev : event)
    : option (ExtractiveSummarizer * list sample * Z * result (list string)) :=
  match ev with
  | @Ev _ A c r =>
      match c in call T return result T -> option _ with
      | Predict s test batch_size => fun r => Some (s, test, batch_size, r)
      | _ => fun _ => None
      end r
  end.

Definition predict_calls (evs : list event)
    : list (ExtractiveSummarizer * list sample * Z * result (list string)) :=
  omap predict_call evs.

Definition count_barriers (evs : list event) : nat :=
  length (List.filter is_barrier evs).

(** The three barrier calls of [main_worker], by the local ranks that
    reach them. *)
Definition barrier_before_data (local_rank : Z) : list event :=
  if negb (py_in local_rank [-1; 0]) then [Ev Barrier (Ok tt)] else [].

Definition barrier_after_data (local_rank : Z) : list event :=
  if py_in local_rank [-1; 0] then [Ev Barrier (Ok tt)] else [].

Definition barrier_after_fit : list event := [Ev Barrier (Ok tt)].

(** The content [_write_list_to_file] leaves in the file. *)
Definition summary_text (list_items : list string) : string :=
  fold_right (fun item rest => format_line item +:+ rest) EmptyString list_items.

(** The state after one more event, console line or change of the files. *)
Definition with_event (st : state) (ev : event) : state :=
  {| trace := trace st ++ [ev]; stdout := stdout st;
     files := files st; environ := environ st |}.

Definition with_line (st : state) (fmt : string) (vals : list pyval) : state :=
  {| trace := trace st; stdout := stdout st ++ [(fmt, vals)];
     files := files st; environ := environ st |}.

Definition with_files (st : state) (f : gmap string string -> gmap string string) : state :=
  {| trace := trace st; stdout := stdout st; files := f (files st);
     environ := environ st |}.

(** The settings of a run, as [main_worker] derives them. *)
Definition is_full_run (a : Args.t) : bool :=
  String.eqb (lower (Args.quick_run a)) "false".

Definition TOP_N_of (a : Args.t) : Z := if is_full_run a then -1 else 10.

Definition on_rank_zero (local_rank : Z) (a : Args.t) : bool :=
  py_in local_rank [-1; 0] && (Args.rank a =? 0).

(** The events of the data-acquisition section, for the datasets it ends
    with. *)
Definition data_acquired (s : ExtractiveSummarizer) (a : Args.t)
    (train test : list sample) (data : list event) : Prop :=
  match Args.train_file a, Args.test_file a with
  | Some train_file, Some test_file =>
      data =
      [Ev (TorchLoad (os_path_join (Args.data_dir a) train_file)) (Ok train);
       Ev (TorchLoad (os_path_join (Args.data_dir a) test_file)) (Ok test)]
  | _, _ =>
      exists train_dataset test_dataset : raw_dataset,
      data =
      [Ev (CNNDMSummarizationDataset (TOP_N_of a) (Args.data_dir a))
          (Ok (train_dataset, test_dataset));
       Ev (Preprocess (processor s) train_dataset "greedy") (Ok train);
       Ev (Preprocess (processor s) test_dataset "greedy") (Ok test)]
  end.

Definition summary_path (a : Args.t) : string :=
  os_path_join (Args.output_dir a) (Args.summary_filename a).

(** The events of the checkpoint and prediction section and what it does
    to the files. *)
Definition finalized (local_rank : Z) (s : ExtractiveSummarizer) (a : Args.t)
    (test : list sample) (fin : list event) (before after : gmap string string) : Prop :=
  if on_rank_zero local_rank a then
    exists prediction : list string,
    fin =
      [Ev (SaveModel s (os_path_join (Args.output_dir a) (Args.model_filename a))) (Ok tt);
       Ev (Predict s (py_slice test 0 (TOP_N_of a)) 128) (Ok prediction);
       Ev (Open (summary_path a) "w") (Ok tt)] ++
      map (fun item => Ev (Write (summary_path a) (format_line item)) (Ok tt)) prediction ++
      [Ev (Close (summary_path a)) (Ok tt)] /\
    after = <[summary_path a := summary_text prediction]> before
  else fin = [] /\ after = before.

(** [returns m a]: some run of [m] ends normally with [a]. *)
Definition returns {A} (m : M A) (a : A) : Prop :=
  exists o st st', m o st = (st', Ok a).

(** [emits P m]: whatever the environment does, [m] only appends to the
    history, and every event it appends satisfies [P]. *)
Definition emits (P : event -> Prop) {A} (m : M A) : Prop :=
  forall o st, exists evs, trace (m o st).1 = trace st ++ evs /\ Forall P evs.

(** What the [with] statement lets through when its body raised [e]. *)
Definition after_close (e : exn) (closing : result unit) : exn :=
  match closing with
  | Ok _ => e
  | Raised e' => e'
  end.

(** The ways a run of straight-line code with one [with] block can end:
    normally; with an exception of the script's own arithmetic; with the
    exception of the last call made; or with a failed write inside the
    [with] block, after which the file is closed. *)
Inductive fail_fast {A : Type} : list event -> result A -> Prop :=
| ff_returns evs a :
    forallb ev_succeeded evs = true -> fail_fast evs (Ok a)
| ff_script evs e :
    forallb ev_succeeded evs = true -> fail_fast evs (Raised e)
| ff_call evs B (c : call B) e :
    forallb ev_succeeded evs = true ->
    fail_fast (evs ++ [Ev c (Raised e)]) (Raised e)
| ff_with evs h data e closing :
    forallb ev_succeeded evs = true ->
    fail_fast (evs ++ [Ev (Write h data) (Raised e); Ev (Close h) closing])
              (Raised (after_close e closing)).

Definition has_shape {A} (m : M A) : Prop :=
  forall o st, exists evs,
    trace (m o st).1 = trace st ++ evs /\ fail_fast evs (m o st).2.

(** [last_only is_x m]: in a run of [m], an event picked by [is_x] can only
    be the last one. *)
Definition last_only (is_x : event -> bool) {A} (m : M A) : Prop :=
  forall o st, exists before tail,
    trace (m o st).1 = trace st ++ before ++ tail /\
    forallb (fun ev => negb (is_x ev)) before = true /\
    (length tail <= 1)%nat.
(** An environment in which no library call raises. *)
Definition never_raises (o : oracle) : Prop :=
  forall A history (c : call A), exists a, o A history c = Ok a.

(** [m] ends normally in environment [o], from every state. *)
Definition completes (o : oracle) {A} (m : M A) : Prop :=
  forall st, exists st' a, m o st = (st', Ok a).
End Observations.

(* ===================================================================== *)
(** ** A sample installation, for concrete runs *)
(* ===================================================================== *)

(** Corpus splits are named, documents are numbered, a processor is known
    by its model name and a summarizer by its processor and encoder. *)
#[export] Instance sample_libraries : Externals := {|
  raw_dataset := string;
  sample := nat;
  ExtSumProcessor := string;
  ExtractiveSummarizer := string * string;
  processor := fst
|}.

Definition sample_summarizer : ExtractiveSummarizer :=
  ("distilbert-base-uncased", "transformer").

(** What every call answers when nothing goes wrong: two devices, the
    default command line, a test split of three documents, and the given
    predictions. *)
Definition canned (prediction : list string) {A} (c : call A) : A :=
  match c in call T return T with
  | DeviceCount => 2
  | ParseArgs => Args.defaults
  | Makedirs _ _ => tt
  | NewExtSumProcessor m => m
  | NewExtractiveSummarizer p _ e _ _ => (p, e)
  | Spawn _ _ _ _ => tt
  | InitProcessGroup _ _ _ _ => tt
  | Barrier => tt
  | Time => inject_Z 0
  | CNNDMSummarizationDataset _ _ => ("train", "test")
  | Preprocess _ d _ => if String.eqb d "train" then [1; 2; 3; 4]%nat else [5; 6; 7]%nat
  | TorchLoad _ => [8; 9]%nat
  | SummarizerFit _ _ => tt
  | SaveModel _ _ => tt
  | Predict _ _ _ => prediction
  | Open _ _ => tt
  | Write _ _ => tt
  | Close _ => tt
  | DestroyProcessGroup => tt
  end.

(** An environment in which exactly the calls picked by [bad] raise. *)
Definition oracle_raising (bad : event -> option exn) (prediction : list string) : oracle :=
  fun A _ c =>
    match bad (Ev c (Ok (canned prediction c))) with
    | Some e => Raised e
    | None => Ok (canned prediction c)
    end.

Definition oracle_ok : oracle :=
  oracle_raising (fun _ => None) ["first summary"; "second summary"].

(** One prediction that spans two lines. *)
Definition oracle_multiline : oracle :=
  oracle_raising (fun _ => None) ["a" +:+ newline +:+ "b"].

(** A disk that fills up: every write fails; and one where closing the
    file fails as well. *)
Definition oracle_write_fails : oracle :=
  oracle_raising
    (fun ev => if is_write ev then Some (LibraryError "write failed") else None)
    ["first summary"; "second summary"].

Definition oracle_write_and_close_fail : oracle :=
  oracle_raising
    (fun ev =>
       if is_write ev then Some (LibraryError "write failed")
       else if is_close ev then Some (LibraryError "close failed")
       else None)
    ["first summary"; "second summary"].

Definition fresh : state :=
  {| trace := []; stdout := []; files := ∅; environ := ∅ |}.

(** The default command line with stored datasets. *)
Definition args_with_files : Args.t := {|
  Args.rank := 0;
  Args.dist_url := "tcp://127.0.0.1:29501";
  Args.node_count := 1;
  Args.cache_dir := "./";
  Args.data_dir := "./";
  Args.output_dir := "./";
  Args.quick_run := "true";
  Args.model_name := "distilbert-base-uncased";
  Args.encoder := "transformer";
  Args.max_pos_length := 512;
  Args.learning_rate := (1 # 1000)%Q;
  Args.batch_size := 5;
  Args.max_steps := PyInt 10000;
  Args.warmup_steps := PyInt 5000;
  Args.top_n := 3;
  Args.summary_filename := "generated_summaries.txt";
  Args.model_filename := "dist_extsum_model.pt";
  Args.train_file := Some "train.pt";
  Args.test_file := Some "test.pt"
|}.

(* ===================================================================== *)
(** ** Further observations and command lines *)
(* ===================================================================== *)

(** The command line with other [--max_steps] and [--warmup_steps]. *)
Definition with_steps (a : Args.t) (max_steps warmup_steps : pynum) : Args.t := {|
  Args.rank := Args.rank a;
  Args.dist_url := Args.dist_url a;
  Args.node_count := Args.node_count a;
  Args.cache_dir := Args.cache_dir a;
  Args.data_dir := Args.data_dir a;
  Args.output_dir := Args.output_dir a;
  Args.quick_run := Args.quick_run a;
  Args.model_name := Args.model_name a;
  Args.encoder := Args.encoder a;
  Args.max_pos_length := Args.max_pos_length a;
  Args.learning_rate := Args.learning_rate a;
  Args.batch_size := Args.batch_size a;
  Args.max_steps := max_steps;
  Args.warmup_steps := warmup_steps;
  Args.top_n := Args.top_n a;
  Args.summary_filename := Args.summary_filename a;
  Args.model_filename := Args.model_filename a;
  Args.train_file := Args.train_file a;
  Args.test_file := Args.test_file a
|}.

(** The command line with other [--cache_dir], [--model_name], [--encoder],
    [--max_pos_length] and [--top_n]. *)
Definition with_model_flags (a : Args.t) (cache_dir model_name encoder : string)
    (max_pos_length top_n : Z) : Args.t := {|
  Args.rank := Args.rank a;
  Args.dist_url := Args.dist_url a;
  Args.node_count := Args.node_count a;
  Args.cache_dir := cache_dir;
  Args.data_dir := Args.data_dir a;
  Args.output_dir := Args.output_dir a;
  Args.quick_run := Args.quick_run a;
  Args.model_name := model_name;
  Args.encoder := encoder;
  Args.max_pos_length := max_pos_length;
  Args.learning_rate := Args.learning_rate a;
  Args.batch_size := Args.batch_size a;
  Args.max_steps := Args.max_steps a;
  Args.warmup_steps := Args.warmup_steps a;
  Args.top_n := top_n;
  Args.summary_filename := Args.summary_filename a;
  Args.model_filename := Args.model_filename a;
  Args.train_file := Args.train_file a;
  Args.test_file := Args.test_file a
|}.

Section MoreDefs.
Context {ext : Externals}.

(** The [init_process_group] calls of a run: backend, rendezvous URL, world
    size and rank. *)
Definition init_call (ev : event) : option (string * string * Z * Z) :=
  match ev with
  | Ev (InitProcessGroup backend init_method world_size rank) _ =>
      Some (backend, init_method, world_size, rank)
  | _ => None
  end.

Definition init_calls (evs : list event) : list (string * string * Z * Z) :=
  omap init_call evs.

(** The calls of the launcher: command line, directories, device count,
    model construction and process spawning. *)
Definition is_launch (ev : event) : bool :=
  match ev with
  | Ev DeviceCount _ => true
  | Ev ParseArgs _ => true
  | Ev (Makedirs _ _) _ => true
  | Ev (NewExtSumProcessor _) _ => true
  | Ev (NewExtractiveSummarizer _ _ _ _ _) _ => true
  | Ev (Spawn _ _ _ _) _ => true
  | _ => false
  end.

Definition is_fit_call (ev : event) : bool :=
  match ev with
  | Ev (SummarizerFit _ _) _ => true
  | _ => false
  end.

(** [keeps R m]: every run of [m] takes a state to one related to it by
    [R]. *)
Definition keeps (R : state -> state -> Prop) {A} (m : M A) : Prop :=
  forall o st, R st (m o st).1.

(** The console of the second state continues the one of the first. *)
Definition console_grows (st st' : state) : Prop :=
  exists more, stdout st' = stdout st ++ more.

(** [m] ends with exception [e] in environment [o], from every state. *)
Definition fails_with (o : oracle) (e : exn) {A} (m : M A) : Prop :=
  forall st, exists st', m o st = (st', Raised e).

(** The program run by [python script.py]: the module level, then
    [main()] under [if __name__ == "__main__"]. *)
Definition script : M unit :=
  module_import ;; main.

End MoreDefs.

Section RunShapes.
Context {ext : Externals}.

Definition is_time (ev : event) : bool :=
  match ev with
  | Ev Time _ => true
  | _ => false
  end.

(** [MAX_STEPS] as [main_worker] sets it, and the [max_steps] it computes
    for [fit]: [MAX_STEPS / world_size]. *)
Definition MAX_STEPS_of (a : Args.t) : pynum :=
  if is_full_run a then Args.max_steps a else PyFloat (inject_Z 10).

Definition scaled_max_steps (ngpus_per_node : Z) (a : Args.t) : result pynum :=
  truediv (MAX_STEPS_of a) (Args.node_count a * ngpus_per_node).

(** Whether [x / d] is out of the range of a double, for [d] not zero. *)
Definition division_overflows (x : pynum) (d : Z) : bool :=
  match x with
  | PyInt z => quotient_too_large z d
  | PyFloat _ => too_large_for_float d
  end.

(** The [fit] calls of a run: summarizer and arguments. *)
Definition fit_call (ev : event) : option (ExtractiveSummarizer * Fit.kwargs sample) :=
  match ev with
  | Ev (SummarizerFit s kw) _ => Some (s, kw)
  | _ => None
  end.

(** A stretch of a run: any number of events of one kind, or at most one
    event of one kind. *)
Inductive phase : Type :=
| any_number (P : event -> bool)
| at_most_one (P : event -> bool).

(** [fits phases evs]: the events come phase by phase, in the order of the
    phases; a phase may stay empty. *)
Inductive fits : list phase -> list event -> Prop :=
| fits_nothing : fits [] []
| fits_skip ph phases evs :
    fits phases evs -> fits (ph :: phases) evs
| fits_more P phases ev evs :
    P ev = true -> fits (any_number P :: phases) evs ->
    fits (any_number P :: phases) (ev :: evs)
| fits_one P phases ev evs :
    P ev = true -> fits phases evs -> fits (at_most_one P :: phases) (ev :: evs).

(** [follows phases m]: whatever the environment does, the events of a run
    of [m] fit the phases. *)
Definition follows (phases : list phase) {A} (m : M A) : Prop :=
  forall o st, exists evs, trace (m o st).1 = trace st ++ evs /\ fits phases evs.

(** The sections of [main_worker]: joining the process group, barrier (a)
    for the local ranks outside [{-1, 0}], data acquisition, barrier (b) for
    the local ranks in [{-1, 0}], [time.time()], [fit], [time.time()],
    barrier (c), the checkpoint and prediction section, and the
    tear-down. *)
Definition worker_phases (local_rank : Z) : list phase :=
  [at_most_one is_init;
   at_most_one (fun ev => is_barrier ev && negb (py_in local_rank [-1; 0]));
   any_number is_data;
   at_most_one (fun ev => is_barrier ev && py_in local_rank [-1; 0]);
   at_most_one is_time;
   at_most_one is_fit_call;
   at_most_one is_time;
   at_most_one is_barrier;
   any_number is_final;
   at_most_one is_destroy].

(** [runs_on m]: a run of [m] in which every library call returns ends
    normally. *)
Definition runs_on {A} (m : M A) : Prop :=
  forall o st, exists evs,
    trace (m o st).1 = trace st ++ evs /\
    (forallb ev_succeeded evs = true -> exists a, (m o st).2 = Ok a).

(** The data of the [write] calls of a run, with the file written to. *)
Definition write_call (ev : event) : option (string * string) :=
  match ev with
  | Ev (Write filehandle data) _ => Some (filehandle, data)
  | _ => None
  end.

Definition write_calls (evs : list event) : list (string * string) :=
  omap write_call evs.

End RunShapes.


(** A command line with [--node_count 0]. *)
Definition args_zero_nodes : Args.t := {|
  Args.rank := 0;
  Args.dist_url := "tcp://127.0.0.1:29501";
  Args.node_count := 0;
  Args.cache_dir := "./";
  Args.data_dir := "./";
  Args.output_dir := "./";
  Args.quick_run := "false";
  Args.model_name := "distilbert-base-uncased";
  Args.encoder := "transformer";
  Args.max_pos_length := 512;
  Args.learning_rate := (1 # 1000)%Q;
  Args.batch_size := 5;
  Args.max_steps := PyFloat (inject_Z 10000);
  Args.warmup_steps := PyFloat (inject_Z 5000);
  Args.top_n := 3;
  Args.summary_filename := "generated_summaries.txt";
  Args.model_filename := "dist_extsum_model.pt";
  Args.train_file := None;
  Args.test_file := None
|}.

(** A full run with a [--max_steps] of 400 digits. *)
Definition args_huge_steps : Args.t :=
  with_steps Args.defaults (PyInt (10 ^ 400)) (PyFloat (inject_Z 5000)).

(** A machine on which counting the devices fails, and one without any
    device. *)
Definition oracle_no_cuda : oracle :=
  oracle_raising
    (fun ev =>
       match ev with
       | Ev DeviceCount _ => Some (LibraryError "no CUDA")
       | _ => None
       end)
    [].

Definition oracle_cpu_only : oracle :=
  fun A _ c =>
    Ok (match c in call T return T with
        | DeviceCount => 0
        | c' => canned [] c'
        end).

(* ===================================================================== *)
(** ** Reasoning about runs *)
(* ===================================================================== *)

Section Runs.
Context {ext : Externals}.

Lemma bind_unfold {A B} (m : M A) (f : A -> M B) o st :
  (m ≫= f) o st =
  match m o st with
  | (st', Ok a) => f a o st'
  | (st', Raised e) => (st', Raised e)
  end.
Proof. reflexivity. Qed.

Lemma truediv_zero x : truediv x 0 = Raised ZeroDivisionError.
Proof. now destruct x. Qed.

Lemma truediv_Ok x d v :
  truediv x d = Ok v -> d <> 0 /\ v = PyFloat (num_value x / inject_Z d).
Proof.
  unfold truediv. destruct x as [z | q]; simpl.
  - destruct (Z.eqb_spec d 0); [discriminate |].
    destruct (quotient_too_large z d); [discriminate |]. intros H. now injection H as <-.
  - destruct (too_large_for_float d); [discriminate |].
    destruct (Z.eqb_spec d 0); [discriminate |]. intros H. now injection H as <-.
Qed.

Lemma append_cons c s t : String c s +:+ t = String c (s +:+ t).
Proof. reflexivity. Qed.

Lemma append_nil_r s : s +:+ EmptyString = s.
Proof. induction s as [| c s IH]; [reflexivity |]. now rewrite append_cons, IH. Qed.

Lemma append_assoc s t u : (s +:+ t) +:+ u = s +:+ (t +:+ u).
Proof. induction s as [| c s IH]; [reflexivity |]. now rewrite !append_cons, IH. Qed.

Lemma bind_Ok {A B} (m : M A) (f : A -> M B) o st st' b :
  (m ≫= f) o st = (st', Ok b) ->
  exists a st1, m o st = (st1, Ok a) /\ f a o st1 = (st', Ok b).
Proof.
  rewrite bind_unfold. destruct (m o st) as [st1 [a | e]]; intros H; [eauto | discriminate].
Qed.

Lemma do_call_Ok {A} (c : call A) o st st' a :
  do_call c o st = (st', Ok a) -> st' = with_event st (Ev c (Ok a)).
Proof. unfold do_call, with_event. intros H. injection H as <- E. now rewrite E. Qed.

Lemma print_Ok fmt vals o st st' u :
  print fmt vals o st = (st', Ok u) -> st' = with_line st fmt vals.
Proof. unfold print. intros H. now injection H as <- _. Qed.

Lemma ret_Ok {A} (x a : A) o st st' :
  ret x o st = (st', Ok a) -> st' = st /\ a = x.
Proof. unfold ret. intros H. injection H as <- <-. auto. Qed.

Lemma lift_Ok {A} (r : result A) a o st st' :
  lift r o st = (st', Ok a) -> st' = st /\ r = Ok a.
Proof. unfold lift. intros H. injection H as <- <-. auto. Qed.

Lemma update_files_Ok f o st st' u :
  update_files f o st = (st', Ok u) -> st' = with_files st f.
Proof. unfold update_files. intros H. now injection H as <- _. Qed.

Lemma py_write_Ok h data o st st' u :
  py_write h data o st = (st', Ok u) ->
  trace st' = trace st ++ [Ev (Write h data) (Ok tt)] /\
  files st' = <[h := default EmptyString (files st !! h) +:+ data]> (files st) /\
  environ st' = environ st.
Proof.
  unfold py_write. intros H.
  apply bind_Ok in H. destruct H as ([] & st1 & H1 & H2).
  apply do_call_Ok in H1. apply update_files_Ok in H2. subst. auto.
Qed.

Lemma write_items_Ok h items : forall o st st' u content,
  write_items h items o st = (st', Ok u) ->
  files st !! h = Some content ->
  trace st' = trace st ++ map (fun item => Ev (Write h (format_line item)) (Ok tt)) items /\
  files st' = <[h := content +:+ summary_text items]> (files st) /\
  environ st' = environ st.
Proof.
  induction items as [| item rest IH]; intros o st st' u content H Hc; simpl in H.
  - apply ret_Ok in H. destruct H as [-> _]. simpl.
    rewrite app_nil_r, append_nil_r, insert_id by exact Hc. auto.
  - apply bind_Ok in H. destruct H as (u1 & st1 & H1 & H2).
    apply py_write_Ok in H1. destruct H1 as (T1 & F1 & E1).
    rewrite Hc in F1. simpl in F1.
    eapply IH in H2; [| rewrite F1; apply lookup_insert_eq].
    destruct H2 as (T2 & F2 & E2).
    rewrite T2, T1, F2, F1, E2, E1. simpl.
    rewrite <- app_assoc, insert_insert_eq, append_assoc. auto.
Qed.

Lemma write_list_to_file_Ok items filename o st st' u :
  _write_list_to_file items filename o st = (st', Ok u) ->
  trace st' = trace st ++
    [Ev (Open filename "w") (Ok tt)] ++
    map (fun item => Ev (Write filename (format_line item)) (Ok tt)) items ++
    [Ev (Close filename) (Ok tt)] /\
  files st' = <[filename := summary_text items]> (files st) /\
  environ st' = environ st.
Proof.
  unfold _write_list_to_file, py_open. intros H.
  apply bind_Ok in H. destruct H as (h & st1 & H1 & H).
  apply bind_Ok in H1. destruct H1 as ([] & st2 & H1 & H2).
  apply do_call_Ok in H1.
  apply bind_Ok in H2. destruct H2 as ([] & st3 & H2 & H3).
  apply update_files_Ok in H2.
  apply ret_Ok in H3. destruct H3 as [-> ->].
  unfold finally in H.
  destruct (write_items filename items o st3) as [st4 r] eqn:Hw.
  destruct (py_close filename o st4) as [st5 [[] | e]] eqn:Hc; [| discriminate].
  injection H as <- ->.
  eapply write_items_Ok in Hw; [| subst; simpl; apply lookup_insert_eq].
  destruct Hw as (T4 & F4 & E4).
  apply do_call_Ok in Hc. subst st5 st3 st2. simpl in *.
  rewrite T4, F4, E4, insert_insert_eq, <- !app_assoc. auto.
Qed.


Lemma emitted_app {A} (m : M A) o st evs :
  trace (m o st).1 = trace st ++ evs -> emitted m o st = evs.
Proof.
  intros H. unfold emitted. rewrite H. apply drop_app_length.
Qed.

Lemma returns_lift {A} (r : result A) a : returns (lift r) a -> r = Ok a.
Proof. intros (o & st & st' & H). unfold lift in H. congruence. Qed.

(** *** Properties of every emitted event *)

Lemma emits_In P {A} (m : M A) o st ev :
  emits P m -> In ev (emitted m o st) -> P ev.
Proof.
  intros Hm Hin. destruct (Hm o st) as (evs & Ht & Hall).
  rewrite (emitted_app _ _ _ _ Ht) in Hin.
  rewrite Forall_forall in Hall. apply Hall. now apply list_elem_of_In.
Qed.

Lemma emits_silent P {A} (m : M A) :
  (forall o st, trace (m o st).1 = trace st) -> emits P m.
Proof.
  intros H o st. exists []. rewrite H, app_nil_r. split; [reflexivity | constructor].
Qed.

Lemma emits_ret P {A} (a : A) : emits P (ret a).
Proof. now apply emits_silent. Qed.

Lemma emits_lift P {A} (r : result A) : emits P (lift r).
Proof. now apply emits_silent. Qed.

Lemma emits_print P fmt vals : emits P (print fmt vals).
Proof. now apply emits_silent. Qed.

Lemma emits_getenv P name : emits P (getenv name).
Proof. now apply emits_silent. Qed.

Lemma emits_setenv P name value : emits P (setenv name value).
Proof. now apply emits_silent. Qed.

Lemma emits_update_files P f : emits P (update_files f).
Proof. now apply emits_silent. Qed.

Lemma emits_call P {A} (c : call A) :
  (forall r, P (Ev c r)) -> emits P (do_call c).
Proof.
  intros H o st. eexists. split; [reflexivity |]. repeat constructor. apply H.
Qed.

Lemma emits_bind P {A B} (m : M A) (f : A -> M B) :
  emits P m -> (forall a, returns m a -> emits P (f a)) -> emits P (m ≫= f).
Proof.
  intros Hm Hf o st. rewrite bind_unfold.
  destruct (Hm o st) as (evs1 & Ht1 & Hall1).
  destruct (m o st) as [st1 [a | e]] eqn:Em; simpl in Ht1.
  - destruct (Hf a (ex_intro _ o (ex_intro _ st (ex_intro _ st1 Em))) o st1)
      as (evs2 & Ht2 & Hall2).
    exists (evs1 ++ evs2). split.
    + rewrite Ht2, Ht1. now rewrite app_assoc.
    + now apply Forall_app.
  - exists evs1. now split.
Qed.

Lemma emits_finally P {A} (body : M A) (on_exit : M unit) :
  emits P body -> emits P on_exit -> emits P (finally body on_exit).
Proof.
  intros Hb Hc o st. unfold finally.
  destruct (Hb o st) as (evs1 & Ht1 & Hall1).
  destruct (body o st) as [st1 r]; simpl in Ht1.
  destruct (Hc o st1) as (evs2 & Ht2 & Hall2).
  exists (evs1 ++ evs2). split; [| now apply Forall_app].
  destruct (on_exit o st1) as [st2 [u | e]]; simpl in *;
    rewrite Ht2, Ht1; now rewrite app_assoc.
Qed.

Lemma emits_py_open P path mode :
  (forall r, P (Ev (Open path mode) r)) -> emits P (py_open path mode).
Proof.
  intros H. unfold py_open.
  apply emits_bind; [now apply emits_call | intros _ _].
  apply emits_bind; [apply emits_update_files | intros _ _]. apply emits_ret.
Qed.

Lemma emits_py_write P h data :
  (forall r, P (Ev (Write h data) r)) -> emits P (py_write h data).
Proof.
  intros H. unfold py_write.
  apply emits_bind; [now apply emits_call | intros _ _]. apply emits_update_files.
Qed.

Lemma emits_write_items P h items :
  (forall data r, P (Ev (Write h data) r)) -> emits P (write_items h items).
Proof.
  intros H. induction items as [| item rest IH]; simpl.
  - apply emits_ret.
  - apply emits_bind; [now apply emits_py_write | intros _ _; exact IH].
Qed.

Lemma emits_write_list_to_file P items filename :
  (forall r, P (Ev (Open filename "w") r)) ->
  (forall h data r, P (Ev (Write h data) r)) ->
  (forall h r, P (Ev (Close h) r)) ->
  emits P (_write_list_to_file items filename).
Proof.
  intros Ho Hw Hc. unfold _write_list_to_file.
  apply emits_bind; [now apply emits_py_open | intros h _].
  apply emits_finally; [apply emits_write_items; apply Hw | apply emits_call; apply Hc].
Qed.

End Runs.

(** Walking through a script: one rule per construct. *)
Ltac emits_step :=
  lazymatch goal with
  | |- emits _ (ret _) => apply emits_ret
  | |- emits _ (lift _) => apply emits_lift
  | |- emits _ (print _ _) => apply emits_print
  | |- emits _ (getenv _) => apply emits_getenv
  | |- emits _ (setenv _ _) => apply emits_setenv
  | |- emits _ (do_call _) => apply emits_call; intros ?
  | |- emits _ (_write_list_to_file _ _) =>
      apply emits_write_list_to_file; intros
  | |- emits _ cleanup => unfold cleanup
  | |- emits _ (mbind _ (lift _)) =>
      apply emits_bind;
      [| let a := fresh "v" in let H := fresh "Hv" in
         intros a H; apply returns_lift in H]
  | |- emits _ (mbind _ _) => apply emits_bind; [| intros ? _]
  | |- emits _ (if ?b then _ else _) => destruct b eqn:?
  | |- emits _ (match ?x with Some _ => _ | None => _ end) => destruct x eqn:?
  | |- emits _ (let (_, _) := ?x in _) => destruct x
  end.

Ltac emits_walk := repeat emits_step.

(** Inverting a run that ended normally, step by step. *)
Ltac ok_run H :=
  lazymatch type of H with
  | (_ ≫= _) _ _ = _ =>
      let H1 := fresh "Hstep" in
      apply bind_Ok in H; destruct H as (? & ? & H1 & H); ok_run H1; ok_run H
  | (let (_, _) := ?p in _) _ _ = _ => destruct p; ok_run H
  | do_call _ _ _ = _ => apply do_call_Ok in H; subst
  | print _ _ _ _ = _ => apply print_Ok in H; subst
  | ret _ _ _ = _ => apply ret_Ok in H; destruct H as (? & ?); subst
  | lift _ _ _ = _ => apply lift_Ok in H; destruct H as (? & ?); subst
  | _write_list_to_file _ _ _ _ = _ =>
      apply write_list_to_file_Ok in H; destruct H as (? & ? & ?)
  | cleanup _ _ = _ => unfold cleanup in H; apply do_call_Ok in H; subst
  | _ => idtac
  end.


Section Worker.
Context {ext : Externals}.

(** A worker run that ends normally went through all sections of
    [main_worker], in order. *)
Lemma main_worker_Ok l n s a o st st' :
  main_worker l n s a o st = (st', Ok tt) ->
  exists train test start kw end_ data fin,
    data_acquired s a train test data /\
    finalized l s a test fin (files st) (files st') /\
    trace st' = trace st ++
      [Ev (InitProcessGroup "nccl" (Args.dist_url a) (Args.node_count a * n)
             (Args.rank a * n + l)) (Ok tt)] ++
      barrier_before_data l ++ data ++ barrier_after_data l ++
      [Ev Time (Ok start); Ev (SummarizerFit s kw) (Ok tt); Ev Time (Ok end_)] ++
      barrier_after_fit ++ fin ++ [Ev DestroyProcessGroup (Ok tt)] /\
    Fit.train_dataset kw = train /\
    environ st' = environ st.
Proof.
  unfold main_worker, barrier_before_data, barrier_after_data,
    barrier_after_fit, data_acquired, finalized, on_rank_zero,
    TOP_N_of, is_full_run, summary_path.
  cbv zeta. intros H.
  destruct (py_in l [-1; 0]) eqn:El;
  destruct (Args.rank a =? 0) eqn:Er;
  destruct (Args.train_file a) as [train_file |] eqn:Etr;
  destruct (Args.test_file a) as [test_file |] eqn:Ete; simpl in H |- *.
  all: ok_run H.
  all: repeat match goal with u : unit |- _ => destruct u end.
  all: simpl in *.
  all: try match goal with Ht : trace _ = _ |- _ => rewrite Ht end.
  all: repeat rewrite <- app_assoc; simpl.
  all: do 7 eexists.
  all: (split; [first [reflexivity | do 2 eexists; reflexivity] |]).
  all: (split;
        [first [split; reflexivity | eexists; split; [reflexivity | eassumption]] |]).
  all: (split; [simpl; repeat rewrite <- app_assoc; reflexivity |]).
  all: split; [reflexivity | assumption || reflexivity].
Qed.

(** Every [fit] call of a worker, however the run goes on, carries the
    keyword arguments the script builds. *)
Lemma main_worker_fit_kwargs l n s a :
  emits (fun ev =>
    match ev with
    | Ev (SummarizerFit s' kw) _ =>
        let full_run := String.eqb (lower (Args.quick_run a)) "false" in
        let rank := Args.rank a * n + l in
        let world_size := Args.node_count a * n in
        s' = s /\
        Fit.num_gpus kw = world_size /\
        Fit.batch_size kw = Args.batch_size a /\
        Fit.gradient_accumulation_steps kw = 1 /\
        truediv (if full_run then Args.max_steps a else PyFloat (inject_Z 10))
                world_size = Ok (Fit.max_steps kw) /\
        Fit.learning_rate kw = Args.learning_rate a /\
        Fit.warmup_steps kw =
          (if full_run then Args.warmup_steps a else PyFloat (inject_Z 500)) /\
        Fit.verbose kw = true /\
        Fit.report_every kw = REPORT_EVERY /\
        Fit.clip_grad_norm kw = false /\
        Fit.local_rank kw = l /\
        Fit.save_every kw = (if negb (py_in rank [-1; 0]) then -1 else SAVE_EVERY) /\
        Fit.world_size kw = world_size /\
        Fit.rank kw = rank
    | _ => True
    end) (main_worker l n s a).
Proof.
  unfold main_worker. cbv zeta. emits_walk; simpl; auto.
  repeat split; auto.
Qed.

Lemma run_of_outcome {A} (m : M A) o st a :
  outcome m o st = Ok a -> m o st = ((m o st).1, Ok a).
Proof. unfold outcome. destruct (m o st) as [st' r]. simpl. now intros ->. Qed.

Lemma main_worker_normal_run l n s a o st :
  outcome (main_worker l n s a) o st = Ok tt ->
  exists train test start kw end_ data fin,
    data_acquired s a train test data /\
    finalized l s a test fin (files st) (files (main_worker l n s a o st).1) /\
    emitted (main_worker l n s a) o st =
      [Ev (InitProcessGroup "nccl" (Args.dist_url a) (Args.node_count a * n)
             (Args.rank a * n + l)) (Ok tt)] ++
      barrier_before_data l ++ data ++ barrier_after_data l ++
      [Ev Time (Ok start); Ev (SummarizerFit s kw) (Ok tt); Ev Time (Ok end_)] ++
      barrier_after_fit ++ fin ++ [Ev DestroyProcessGroup (Ok tt)] /\
    Fit.train_dataset kw = train.
Proof.
  intros H. apply run_of_outcome in H.
  destruct (main_worker_Ok _ _ _ _ _ _ _ H)
    as (train & test & start & kw & end_ & data & fin & Hd & Hf & Ht & Hk & _).
  exists train, test, start, kw, end_, data, fin.
  repeat split; try assumption. now apply emitted_app.
Qed.

Lemma parsed_full_run a :
  Args.parsed a ->
  is_full_run a = String.eqb (Args.quick_run a) "false".
Proof.
  intros [[H | H] _]; unfold is_full_run; now rewrite H.
Qed.

End Worker.

(** Finding an event in an explicit list. *)
Ltac find_event := cbv; repeat first [left; reflexivity | right].

(* ===================================================================== *)
(** ** Runs that end normally exist *)
(* ===================================================================== *)

Section Progress.
Context {ext : Externals}.
Variable o : oracle.
Hypothesis Ho : never_raises o.

Lemma completes_ret {A} (a : A) : completes o (ret a).
Proof. intros st. now exists st, a. Qed.

Lemma completes_print fmt vals : completes o (print fmt vals).
Proof. intros st. now eexists _, tt. Qed.

Lemma completes_update_files f : completes o (update_files f).
Proof. intros st. now eexists _, tt. Qed.

Lemma completes_lift {A} (r : result A) a : r = Ok a -> completes o (lift r).
Proof. intros -> st. now exists st, a. Qed.

Lemma completes_call {A} (c : call A) : completes o (do_call c).
Proof.
  intros st. destruct (Ho A (trace st) c) as [a Ha].
  unfold do_call. rewrite Ha. now eexists _, a.
Qed.

Lemma completes_bind {A B} (m : M A) (f : A -> M B) :
  completes o m -> (forall a, completes o (f a)) -> completes o (m ≫= f).
Proof.
  intros Hm Hf st. rewrite bind_unfold.
  destruct (Hm st) as (st1 & a & ->). apply Hf.
Qed.

Lemma completes_finally {A} (body : M A) (on_exit : M unit) :
  completes o body -> completes o on_exit -> completes o (finally body on_exit).
Proof.
  intros Hb Hc st. unfold finally.
  destruct (Hb st) as (st1 & a & ->). destruct (Hc st1) as (st2 & u & ->).
  now exists st2, a.
Qed.

Lemma completes_write_items h items : completes o (write_items h items).
Proof.
  induction items as [| item rest IH]; simpl.
  - apply completes_ret.
  - apply completes_bind; [| intros _; exact IH].
    unfold py_write. apply completes_bind; [apply completes_call |].
    intros _. apply completes_update_files.
Qed.

Lemma completes_write_list_to_file items filename :
  completes o (_write_list_to_file items filename).
Proof.
  unfold _write_list_to_file, py_open.
  apply completes_bind.
  - apply completes_bind; [apply completes_call | intros _].
    apply completes_bind; [apply completes_update_files | intros _; apply completes_ret].
  - intros h. apply completes_finally; [apply completes_write_items | apply completes_call].
Qed.

End Progress.

Ltac completes_step Ho :=
  lazymatch goal with
  | |- completes _ (ret _) => apply completes_ret
  | |- completes _ (print _ _) => apply completes_print
  | |- completes _ (do_call _) => apply (completes_call _ Ho)
  | |- completes _ (_write_list_to_file _ _) => apply (completes_write_list_to_file _ Ho)
  | |- completes _ cleanup => unfold cleanup
  | |- completes _ (mbind _ _) => apply completes_bind; [| intros ?]
  | |- completes _ (if ?b then _ else _) => destruct b
  | |- completes _ (match ?x with Some _ => _ | None => _ end) => destruct x
  | |- completes _ (let (_, _) := ?x in _) => destruct x
  end.

(* ===================================================================== *)
(** ** The arguments of [fit] *)
(* ===================================================================== *)

Section FitArguments.
Context {ext : Externals}.

(** C1, as amended.  For every parsed configuration, each [fit] call of
    [main_worker] receives [max_steps = MAX_STEPS / world_size], scaled by
    the world size, and [warmup_steps = WARMUP_STEPS], not scaled, where
    [MAX_STEPS] and [WARMUP_STEPS] are [args.max_steps] and
    [args.warmup_steps] when [quick_run] is ["false"], and [1e1] and [5e2]
    otherwise; and a worker that runs to its end has called [fit]. *)
Theorem fit_receives_steps l n s a o st :
  Args.parsed a ->
  let MAX_STEPS :=
    if String.eqb (Args.quick_run a) "false"
    then Args.max_steps a else PyFloat (inject_Z 10) in
  let WARMUP_STEPS :=
    if String.eqb (Args.quick_run a) "false"
    then Args.warmup_steps a else PyFloat (inject_Z 500) in
  let world_size := Args.node_count a * n in
  let evs := emitted (main_worker l n s a) o st in
  (forall s' kw r, In (Ev (SummarizerFit s' kw) r) evs ->
     world_size <> 0 /\
     Fit.max_steps kw = PyFloat (num_value MAX_STEPS / inject_Z world_size) /\
     Fit.warmup_steps kw = WARMUP_STEPS) /\
  (outcome (main_worker l n s a) o st = Ok tt ->
     exists kw, In (Ev (SummarizerFit s kw) (Ok tt)) evs).
Proof.
  intros Hp. cbv zeta. split.
  - intros s' kw r Hin.
    apply (emits_In _ _ _ _ _ (main_worker_fit_kwargs l n s a)) in Hin.
    cbv zeta in Hin. fold (is_full_run a) in Hin.
    rewrite (parsed_full_run a Hp) in Hin.
    destruct Hin as (_ & _ & _ & _ & Hmax & _ & Hwarm & _).
    apply truediv_Ok in Hmax. destruct Hmax as [Hw Hmax]. auto.
  - intros Hok.
    destruct (main_worker_normal_run _ _ _ _ _ _ Hok)
      as (train & test & start & kw & end_ & data & fin & _ & _ & Ht & _).
    exists kw. rewrite Ht.
    rewrite !in_app_iff. do 4 right. left. simpl. auto.
Qed.


End FitArguments.

(** The worker of local rank 0 on a node with two devices, default command
    line: [fit] gets the 5000 warm-up steps of the command line, not 2500. *)
Lemma warmup_steps_not_scaled_example :
  Args.parsed Args.defaults /\
  exists kw,
    In (Ev (SummarizerFit sample_summarizer kw) (Ok tt))
       (emitted (main_worker 0 2 sample_summarizer Args.defaults) oracle_ok fresh) /\
    Fit.world_size kw = 2 /\
    Fit.warmup_steps kw = PyFloat (inject_Z 5000) /\
    ~ Qeq (num_value (Fit.warmup_steps kw))
          (num_value (Args.warmup_steps Args.defaults) / inject_Z 2).
Proof.
  split; [split; [now right | simpl; tauto] |].
  eexists. split; [find_event |].
  split; [reflexivity |]. split; [reflexivity |].
  intros H. vm_compute in H. discriminate.
Qed.

Lemma fit_receives_steps_witness :
  Args.parsed Args.defaults /\
  (forall s' kw r,
     In (Ev (SummarizerFit s' kw) r)
        (emitted (main_worker 0 2 sample_summarizer Args.defaults) oracle_ok fresh) ->
     1 * 2 <> 0 /\
     Fit.max_steps kw = PyFloat (inject_Z 10000 / inject_Z (1 * 2)) /\
     Fit.warmup_steps kw = PyFloat (inject_Z 5000)) /\
  (outcome (main_worker 0 2 sample_summarizer Args.defaults) oracle_ok fresh = Ok tt ->
   exists kw,
     In (Ev (SummarizerFit sample_summarizer kw) (Ok tt))
        (emitted (main_worker 0 2 sample_summarizer Args.defaults) oracle_ok fresh)).
Proof.
  assert (Hp : Args.parsed Args.defaults) by (split; [now right | simpl; tauto]).
  split; [exact Hp |].
  exact (fit_receives_steps 0 2 sample_summarizer Args.defaults oracle_ok fresh Hp).
Defined.



(* ===================================================================== *)
(** ** Barriers, data acquisition and the rank-0 section *)
(* ===================================================================== *)

Section Coordination.
Context {ext : Externals}.

Lemma count_barriers_app evs1 evs2 :
  count_barriers (evs1 ++ evs2) = (count_barriers evs1 + count_barriers evs2)%nat.
Proof. unfold count_barriers. now rewrite List.filter_app, length_app. Qed.

Lemma count_barriers_none (P : event -> bool) evs :
  (forall ev, P ev = true -> is_barrier ev = false) ->
  forallb P evs = true -> count_barriers evs = 0%nat.
Proof.
  intros HP. unfold count_barriers.
  induction evs as [| ev evs IH]; simpl; [reflexivity |].
  intros H. apply andb_true_iff in H. destruct H as [H1 H2].
  rewrite (HP _ H1). auto.
Qed.

Lemma is_data_not_barrier ev : is_data ev = true -> is_barrier ev = false.
Proof. destruct ev as [A c r]. now destruct c. Qed.

Lemma is_final_not_barrier ev : is_final ev = true -> is_barrier ev = false.
Proof. destruct ev as [A c r]. now destruct c. Qed.

Lemma data_acquired_is_data s a train test data :
  data_acquired s a train test data -> data <> [] /\ forallb is_data data = true.
Proof.
  unfold data_acquired.
  destruct (Args.train_file a), (Args.test_file a); intros H;
    try destruct H as (d1 & d2 & H); subst; split; (discriminate || reflexivity).
Qed.

Lemma writes_are_final path (items : list string) :
  forallb is_final
    (map (fun item => Ev (Write path (format_line item)) (Ok tt)) items) = true.
Proof. induction items; simpl; auto. Qed.

Lemma finalized_is_final l s a test fin before after :
  finalized l s a test fin before after -> forallb is_final fin = true.
Proof.
  unfold finalized. destruct (on_rank_zero l a).
  - intros (prediction & -> & _). simpl.
    rewrite forallb_app, writes_are_final. reflexivity.
  - now intros [-> _].
Qed.

Lemma barrier_guards l :
  (barrier_before_data l = [Ev Barrier (Ok tt)] <-> l <> -1 /\ l <> 0) /\
  (barrier_after_data l = [Ev Barrier (Ok tt)] <-> l = -1 \/ l = 0) /\
  count_barriers (barrier_before_data l ++ barrier_after_data l) = 1%nat.
Proof.
  unfold barrier_before_data, barrier_after_data, py_in. simpl.
  destruct (Z.eqb_spec l (-1)); destruct (Z.eqb_spec l 0); simpl;
    repeat split; intros; try lia; try discriminate; try reflexivity.
Qed.

Lemma on_rank_zero_spec l a :
  on_rank_zero l a = true <-> (l = -1 \/ l = 0) /\ Args.rank a = 0.
Proof.
  unfold on_rank_zero, py_in. simpl.
  destruct (Z.eqb_spec l (-1)); destruct (Z.eqb_spec l 0);
    destruct (Z.eqb_spec (Args.rank a) 0); simpl; split; intros; try lia;
    try discriminate; try reflexivity.
Qed.

Lemma forallb_impl (P Q : event -> bool) evs :
  (forall ev, P ev = true -> Q ev = true) ->
  forallb P evs = true -> forallb Q evs = true.
Proof.
  intros H. induction evs as [| ev evs IH]; simpl; [reflexivity |].
  intros H1. apply andb_true_iff in H1. destruct H1 as [H1 H2].
  now rewrite (H _ H1), IH.
Qed.

Lemma is_data_earlier ev : is_data ev = true -> is_earlier ev = true.
Proof. destruct ev as [A c r]. now destruct c. Qed.

Lemma barriers_earlier l :
  forallb is_earlier (barrier_before_data l) = true /\
  forallb is_earlier (barrier_after_data l) = true.
Proof.
  unfold barrier_before_data, barrier_after_data. now destruct (py_in l [-1; 0]).
Qed.

(** A normal run, cut where the rank-0 section begins. *)
Lemma main_worker_sections l n s a o st :
  outcome (main_worker l n s a) o st = Ok tt ->
  exists train test data before fin,
    data_acquired s a train test data /\
    (exists evs1 evs2, before = evs1 ++ data ++ evs2) /\
    forallb is_earlier before = true /\
    finalized l s a test fin (files st) (files (main_worker l n s a o st).1) /\
    emitted (main_worker l n s a) o st =
      before ++ fin ++ [Ev DestroyProcessGroup (Ok tt)].
Proof.
  intros Hok.
  destruct (main_worker_normal_run _ _ _ _ _ _ Hok)
    as (train & test & start & kw & end_ & data & fin & Hd & Hf & Ht & _).
  set (init := [Ev (InitProcessGroup "nccl" (Args.dist_url a) (Args.node_count a * n)
                      (Args.rank a * n + l)) (Ok tt)]) in Ht.
  set (training := [Ev Time (Ok start); Ev (SummarizerFit s kw) (Ok tt);
                    Ev Time (Ok end_)]) in Ht.
  exists train, test, data.
  exists ((init ++ barrier_before_data l) ++ data ++
          (barrier_after_data l ++ training ++ barrier_after_fit)), fin.
  split; [exact Hd |]. split; [| split; [| split; [exact Hf |]]].
  - now exists (init ++ barrier_before_data l),
               (barrier_after_data l ++ training ++ barrier_after_fit).
  - destruct (barriers_earlier l) as [H1 H2].
    destruct (data_acquired_is_data _ _ _ _ _ Hd) as [_ H3].
    apply (forallb_impl _ _ _ is_data_earlier) in H3.
    rewrite !forallb_app, H1, H2, H3. reflexivity.
  - rewrite Ht, <- !app_assoc. reflexivity.
Qed.

End Coordination.

(* ===================================================================== *)
(** ** Prediction and the summary file *)
(* ===================================================================== *)

Section Slices.
Context {A : Type}.

Lemma py_slice_from_start (l : list A) stop :
  py_slice l 0 stop = firstn (slice_index l stop) l.
Proof.
  unfold py_slice. replace (slice_index l 0) with 0%nat.
  - now rewrite Nat.sub_0_r.
  - unfold slice_index. simpl. lia.
Qed.

Lemma py_slice_all_but_last (l : list A) :
  py_slice l 0 (-1) = removelast l /\ length (py_slice l 0 (-1)) = (length l - 1)%nat.
Proof.
  rewrite py_slice_from_start.
  assert (E : slice_index l (-1) = pred (length l)).
  { unfold slice_index. cbv zeta. change (-1 <? 0) with true. cbv iota. lia. }
  rewrite E, <- removelast_firstn_len. split; [reflexivity |].
  rewrite removelast_firstn_len, length_firstn. lia.
Qed.

Lemma py_slice_first_ten (l : list A) :
  py_slice l 0 10 = firstn 10 l /\ (length (py_slice l 0 10) <= 10)%nat.
Proof.
  rewrite py_slice_from_start.
  assert (E : slice_index l 10 = Nat.min 10 (length l)).
  { unfold slice_index. cbv zeta. change (10 <? 0) with false. cbv iota. lia. }
  rewrite E. split.
  - destruct (Nat.le_ge_cases 10 (length l)) as [H | H].
    + now rewrite Nat.min_l.
    + rewrite Nat.min_r by exact H. rewrite !firstn_all2; auto.
  - rewrite length_firstn. lia.
Qed.
End Slices.

Lemma file_lines_from_item item : forall cur rest,
  has_newline item = false ->
  file_lines_from cur (format_line item +:+ rest) =
  (cur +:+ item) :: file_lines_from EmptyString rest.
Proof.
  induction item as [| c item IH]; intros cur rest H.
  - rewrite append_nil_r. reflexivity.
  - simpl in H. apply orb_false_iff in H. destruct H as [Hc Hi].
    unfold format_line. rewrite !append_cons. simpl. rewrite Hc.
    fold (format_line item). rewrite IH by exact Hi.
    now rewrite append_assoc.
Qed.

Lemma file_lines_summary_text items :
  forallb (fun item => negb (has_newline item)) items = true ->
  file_lines (summary_text items) = items.
Proof.
  unfold file_lines. induction items as [| item rest IH]; simpl; [reflexivity |].
  intros H. apply andb_true_iff in H. destruct H as [H1 H2].
  apply negb_true_iff in H1.
  rewrite file_lines_from_item by exact H1. simpl. now rewrite IH.
Qed.

Section Prediction.
Context {ext : Externals}.

Lemma predict_calls_app evs1 evs2 :
  predict_calls (evs1 ++ evs2) = predict_calls evs1 ++ predict_calls evs2.
Proof. apply omap_app. Qed.

Lemma predict_calls_earlier evs :
  forallb is_earlier evs = true -> predict_calls evs = [].
Proof.
  unfold predict_calls. induction evs as [| ev evs IH]; simpl; [reflexivity |].
  intros H. apply andb_true_iff in H. destruct H as [H1 H2].
  specialize (IH H2). destruct ev as [A c r].
  destruct c; simpl in *; (exact IH || discriminate).
Qed.

Lemma predict_calls_writes path (items : list string) :
  predict_calls (map (fun item => Ev (Write path (format_line item)) (Ok tt)) items) = [].
Proof. unfold predict_calls. induction items; simpl; auto. Qed.

(** The one [predict] call of a normal run of the chosen worker, the
    dataset it slices and the file it fills. *)
Lemma main_worker_predicts l n s a o st :
  outcome (main_worker l n s a) o st = Ok tt ->
  (l = -1 \/ l = 0) /\ Args.rank a = 0 ->
  exists train test data evs1 evs2 prediction,
    data_acquired s a train test data /\
    emitted (main_worker l n s a) o st = evs1 ++ data ++ evs2 /\
    predict_calls (emitted (main_worker l n s a) o st) =
      [(s, py_slice test 0 (TOP_N_of a), 128, Ok prediction)] /\
    files (main_worker l n s a o st).1 =
      <[summary_path a := summary_text prediction]> (files st).
Proof.
  intros Hok Hz. apply on_rank_zero_spec in Hz.
  destruct (main_worker_sections _ _ _ _ _ _ Hok)
    as (train & test & data & before & fin & Hd & (evs1 & evs2 & Hb) & He & Hf & Ht).
  unfold finalized in Hf. rewrite Hz in Hf. destruct Hf as (prediction & Hfin & Hfiles).
  exists train, test, data, evs1, (evs2 ++ fin ++ [Ev DestroyProcessGroup (Ok tt)]),
    prediction.
  split; [exact Hd |]. split; [| split; [| exact Hfiles]].
  - rewrite Ht, Hb, <- !app_assoc. reflexivity.
  - rewrite Ht, !predict_calls_app, (predict_calls_earlier _ He), Hfin.
    rewrite !predict_calls_app, predict_calls_writes. reflexivity.
Qed.

(** C10.  The documents handed to [predict] are [ext_sum_test[0:TOP_N]],
    with [TOP_N = -1] when [quick_run] is ["false"] and [10] otherwise: a
    full run predicts on every test document but the last one, which it
    never evaluates when the test set is not empty, and a quick run on at
    most the first 10. *)
Theorem prediction_slice l n s a o st :
  Args.parsed a ->
  outcome (main_worker l n s a) o st = Ok tt ->
  (l = -1 \/ l = 0) /\ Args.rank a = 0 ->
  let TOP_N := if String.eqb (Args.quick_run a) "false" then -1 else 10 in
  exists train ext_sum_test data evs1 evs2 prediction,
    data_acquired s a train ext_sum_test data /\
    emitted (main_worker l n s a) o st = evs1 ++ data ++ evs2 /\
    predict_calls (emitted (main_worker l n s a) o st) =
      [(s, py_slice ext_sum_test 0 TOP_N, 128, Ok prediction)] /\
    (Args.quick_run a = "false" ->
       py_slice ext_sum_test 0 TOP_N = removelast ext_sum_test /\
       length (py_slice ext_sum_test 0 TOP_N) = (length ext_sum_test - 1)%nat /\
       (ext_sum_test <> [] ->
        forall d, ext_sum_test = py_slice ext_sum_test 0 TOP_N ++ [List.last ext_sum_test d])) /\
    (Args.quick_run a <> "false" ->
       py_slice ext_sum_test 0 TOP_N = firstn 10 ext_sum_test /\
       (length (py_slice ext_sum_test 0 TOP_N) <= 10)%nat).
Proof.
  intros Hp Hok Hz. cbv zeta.
  destruct (main_worker_predicts _ _ _ _ _ _ Hok Hz)
    as (train & test & data & evs1 & evs2 & prediction & Hd & He & Hc & _).
  exists train, test, data, evs1, evs2, prediction.
  unfold TOP_N_of in Hc. rewrite (parsed_full_run a Hp) in Hc.
  split; [exact Hd |]. split; [exact He |]. split; [exact Hc |].
  split.
  - intros Hq. rewrite Hq. simpl.
    destruct (py_slice_all_but_last test) as [H1 H2].
    split; [exact H1 |]. split; [exact H2 |].
    intros Hne d. rewrite H1. now apply app_removelast_last.
  - intros Hq. apply String.eqb_neq in Hq. rewrite Hq.
    apply py_slice_first_ten.
Qed.

Lemma summary_text_items (items : list string) :
  summary_text items =
  fold_right (fun item rest => item +:+ newline +:+ rest) EmptyString items.
Proof.
  unfold summary_text, format_line.
  induction items as [| item rest IH]; simpl; [reflexivity |].
  now rewrite IH, append_assoc.
Qed.

(** C6, as amended.  The file written at
    [os.path.join(output_dir, summary_filename)] holds the predictions in
    list order, each followed by one newline character; when no summary
    contains a newline character itself, the lines of the file are exactly
    the summaries, one per line, so there are as many lines as
    predictions. *)
Theorem summary_file_lines l n s a o st :
  outcome (main_worker l n s a) o st = Ok tt ->
  (l = -1 \/ l = 0) /\ Args.rank a = 0 ->
  exists test prediction,
    predict_calls (emitted (main_worker l n s a) o st) =
      [(s, test, 128, Ok prediction)] /\
    files (main_worker l n s a o st).1
      !! os_path_join (Args.output_dir a) (Args.summary_filename a) =
      Some (fold_right (fun item rest => item +:+ newline +:+ rest)
              EmptyString prediction) /\
    (forallb (fun item => negb (has_newline item)) prediction = true ->
     file_lines (fold_right (fun item rest => item +:+ newline +:+ rest)
                   EmptyString prediction) = prediction /\
     length (file_lines (fold_right (fun item rest => item +:+ newline +:+ rest)
                           EmptyString prediction)) = length prediction).
Proof.
  intros Hok Hz.
  destruct (main_worker_predicts _ _ _ _ _ _ Hok Hz)
    as (train & test & data & evs1 & evs2 & prediction & _ & _ & Hc & Hf).
  exists (py_slice test 0 (TOP_N_of a)), prediction.
  rewrite <- summary_text_items. split; [exact Hc |]. split.
  - rewrite Hf. apply lookup_insert_eq.
  - intros Hn. rewrite (file_lines_summary_text _ Hn). auto.
Qed.

End Prediction.

(* ===================================================================== *)
(** ** Import and launch *)
(* ===================================================================== *)

Section Stepping.
Context {ext : Externals}.

Lemma emitted_print_bind {B} fmt vals (k : unit -> M B) o st :
  emitted (print fmt vals ≫= k) o st = emitted (k tt) o (with_line st fmt vals).
Proof. reflexivity. Qed.

Lemma emitted_getenv_bind {B} name (k : option string -> M B) o st :
  emitted (getenv name ≫= k) o st = emitted (k (environ st !! name)) o st.
Proof. reflexivity. Qed.

Lemma emitted_call_bind P {A B} (c : call A) (k : A -> M B) o st :
  (forall a, emits P (k a)) ->
  exists rest,
    emitted (do_call c ≫= k) o st = Ev c (o A (trace st) c) :: rest /\
    Forall P rest /\
    match o A (trace st) c with
    | Ok a => rest = emitted (k a) o (with_event st (Ev c (Ok a)))
    | Raised _ => rest = []
    end.
Proof.
  intros Hk.
  assert (Hrun : (do_call c ≫= k) o st =
                 match o A (trace st) c with
                 | Ok a => k a o (with_event st (Ev c (Ok a)))
                 | Raised e => (with_event st (Ev c (Raised e)), Raised e)
                 end).
  { rewrite bind_unfold. unfold do_call, with_event.
    now destruct (o A (trace st) c). }
  destruct (o A (trace st) c) as [a | e].
  - destruct (Hk a o (with_event st (Ev c (Ok a)))) as (evs & Ht & Hall).
    exists evs. split; [| split; [exact Hall | symmetry; now apply emitted_app]].
    apply emitted_app. rewrite Hrun, Ht. simpl. now rewrite <- app_assoc.
  - exists []. split; [| split; [constructor | reflexivity]].
    apply emitted_app. now rewrite Hrun.
Qed.

Lemma emitted_call {A} (c : call A) o st :
  emitted (do_call c) o st = [Ev c (o A (trace st) c)].
Proof. now apply emitted_app. Qed.

End Stepping.

(** One step of a run that may fail: the next call and what follows it. *)
Ltac call_step H :=
  match type of H with
  | context [emitted (do_call ?c ≫= ?k) ?o ?st] =>
      let rest := fresh "rest" in
      let He := fresh "He" in
      let Hr := fresh "Hr" in
      destruct (emitted_call_bind (fun _ => True) c k o st) as (rest & He & _ & Hr);
      [ intros; emits_walk; auto
      | rewrite He in *; clear He;
        destruct (o _ (trace st) c) as [? | ?]; subst rest; simpl in H |- * ]
  end.

Section Launch.
Context {ext : Externals}.

Lemma main_reaches_spawn o st nprocs ngpus s a :
  In (nprocs, ngpus, s, a) (spawn_calls (emitted main o st)) ->
  nprocs = ngpus /\
  exists p r,
    emitted main o st =
    [Ev ParseArgs (Ok a);
     Ev (Makedirs (Args.output_dir a) true) (Ok tt);
     Ev (Makedirs (Args.cache_dir a) true) (Ok tt);
     Ev DeviceCount (Ok ngpus);
     Ev (NewExtSumProcessor (Args.model_name a)) (Ok p);
     Ev (NewExtractiveSummarizer p (Args.model_name a) (Args.encoder a)
           (Args.max_pos_length a) (Args.cache_dir a)) (Ok s);
     Ev (Spawn ngpus ngpus s a) r].
Proof.
  unfold main, spawn_calls. rewrite emitted_getenv_bind, emitted_print_bind.
  intros H.
  call_step H; [| contradiction].
  rewrite !emitted_print_bind in *.
  call_step H; [| contradiction].
  call_step H; [| contradiction].
  call_step H; [| contradiction].
  call_step H; [| contradiction].
  call_step H; [| contradiction].
  rewrite emitted_call in *. simpl in H. destruct H as [H | []].
  injection H as <- <- <- <-.
  repeat match goal with u : unit |- _ => destruct u end.
  split; [reflexivity |]. eauto.
Qed.
Lemma spawned_workers_length nprocs n s a :
  length (spawned_workers nprocs n s a) = Z.to_nat nprocs.
Proof. unfold spawned_workers. now rewrite length_map, length_seq. Qed.

Lemma spawned_workers_lookup nprocs n s a l :
  0 <= l < nprocs ->
  spawned_workers nprocs n s a !! Z.to_nat l = Some (main_worker l n s a).
Proof.
  intros Hl. unfold spawned_workers.
  rewrite list_lookup_fmap, lookup_seq_lt by lia. simpl.
  now rewrite Z2Nat.id by lia.
Qed.

Lemma main_worker_joins_first l n s a o st :
  exists rest,
    emitted (main_worker l n s a) o st =
      Ev (InitProcessGroup "nccl" (Args.dist_url a) (Args.node_count a * n)
            (Args.rank a * n + l))
         (o unit (trace st)
            (InitProcessGroup "nccl" (Args.dist_url a) (Args.node_count a * n)
               (Args.rank a * n + l))) :: rest /\
    forallb (fun ev => negb (is_init ev)) rest = true.
Proof.
  unfold main_worker. cbv zeta. rewrite !emitted_print_bind.
  match goal with
  | |- context [emitted (do_call ?c ≫= ?k) ?o ?st'] =>
      destruct (emitted_call_bind (fun ev => is_init ev = false) c k o st')
        as (rest & He & Hall & _)
  end.
  - intros _. emits_walk; reflexivity.
  - exists rest. split; [exact He |].
    apply forallb_forall. rewrite Forall_forall in Hall.
    intros ev Hin. apply list_elem_of_In in Hin. now rewrite (Hall _ Hin).
Qed.


(** C9.  At import the script sets exactly three environment variables:
    [NCCL_IB_DISABLE] to ["0"], [OMP_NUM_THREADS] to the decimal string of
    [torch.cuda.device_count()] ([pretty] is the decimal printer of stdpp)
    and [KMP_AFFINITY] to ["verbose"]; every other variable keeps its value,
    and nothing of the command line is read: the only library call is
    [device_count]. *)
Theorem module_import_environment o st :
  outcome module_import o st = Ok tt ->
  exists n,
    emitted module_import o st = [Ev DeviceCount (Ok n)] /\
    let env := environ (module_import o st).1 in
    env !! "NCCL_IB_DISABLE" = Some "0" /\
    env !! "OMP_NUM_THREADS" = Some (pretty n) /\
    env !! "KMP_AFFINITY" = Some "verbose" /\
    forall name,
      name <> "NCCL_IB_DISABLE" -> name <> "OMP_NUM_THREADS" ->
      name <> "KMP_AFFINITY" ->
      env !! name = environ st !! name.
Proof.
  assert (Hrun : module_import o st =
    match o Z (trace st) DeviceCount with
    | Ok n =>
        ({| trace := trace st ++ [Ev DeviceCount (Ok n)]; stdout := stdout st;
            files := files st;
            environ := <["KMP_AFFINITY" := "verbose"]>
                         (<["OMP_NUM_THREADS" := pretty n]>
                            (<["NCCL_IB_DISABLE" := "0"]> (environ st))) |}, Ok tt)
    | Raised e =>
        ({| trace := trace st ++ [Ev DeviceCount (Raised e)]; stdout := stdout st;
            files := files st;
            environ := <["NCCL_IB_DISABLE" := "0"]> (environ st) |}, Raised e)
    end).
  { cbv [module_import mbind M_bind bind setenv do_call]. simpl.
    now destruct (o Z (trace st) DeviceCount). }
  unfold outcome. intros Hok. rewrite Hrun in Hok.
  destruct (o Z (trace st) DeviceCount) as [n | e] eqn:E; [| discriminate].
  exists n. split.
  - apply emitted_app. now rewrite Hrun.
  - rewrite Hrun. cbv zeta. simpl.
    split; [now rewrite !lookup_insert_ne, lookup_insert_eq by discriminate |].
    split; [now rewrite lookup_insert_ne, lookup_insert_eq by discriminate |].
    split; [now rewrite lookup_insert_eq |].
    intros name H1 H2 H3. now rewrite !lookup_insert_ne by congruence.
Qed.
End Launch.

(* ===================================================================== *)
(** ** Errors *)
(* ===================================================================== *)

Section FailFast.
Context {ext : Externals}.

Lemma fail_fast_raised {A B} evs e :
  fail_fast evs (Raised e : result A) -> fail_fast evs (Raised e : result B).
Proof.
  intros H. remember (Raised e : result A) as r eqn:Er.
  destruct H as [evs a H | evs e' H | evs C c e' H | evs h d e' cl H];
    try discriminate; injection Er as <-.
  - now apply ff_script.
  - now apply ff_call.
  - now apply ff_with.
Qed.

Lemma fail_fast_prepend {A} evs1 evs2 (r : result A) :
  forallb ev_succeeded evs1 = true -> fail_fast evs2 r -> fail_fast (evs1 ++ evs2) r.
Proof.
  intros H1 H2. destruct H2 as [evs a H | evs e H | evs B c e H | evs h d e cl H].
  - apply ff_returns. now rewrite forallb_app, H1.
  - apply ff_script. now rewrite forallb_app, H1.
  - rewrite app_assoc. apply ff_call. now rewrite forallb_app, H1.
  - rewrite app_assoc. apply ff_with. now rewrite forallb_app, H1.
Qed.

Lemma shape_silent {A} (m : M A) :
  (forall o st, trace (m o st).1 = trace st) -> has_shape m.
Proof.
  intros H o st. exists []. rewrite H, app_nil_r. split; [reflexivity |].
  destruct (m o st).2; now constructor.
Qed.

Lemma shape_ret {A} (a : A) : has_shape (ret a).
Proof. now apply shape_silent. Qed.

Lemma shape_lift {A} (r : result A) : has_shape (lift r).
Proof. now apply shape_silent. Qed.

Lemma shape_print fmt vals : has_shape (print fmt vals).
Proof. now apply shape_silent. Qed.

Lemma shape_getenv name : has_shape (getenv name).
Proof. now apply shape_silent. Qed.

Lemma shape_update_files f : has_shape (update_files f).
Proof. now apply shape_silent. Qed.

Lemma shape_call {A} (c : call A) : has_shape (do_call c).
Proof.
  intros o st. unfold do_call. simpl.
  destruct (o A (trace st) c) as [a | e].
  - exists [Ev c (Ok a)]. split; [reflexivity |]. now apply ff_returns.
  - exists ([] ++ [Ev c (Raised e)]). split; [reflexivity |]. now apply ff_call.
Qed.

Lemma shape_bind {A B} (m : M A) (f : A -> M B) :
  has_shape m -> (forall a, has_shape (f a)) -> has_shape (m ≫= f).
Proof.
  intros Hm Hf o st. rewrite bind_unfold.
  destruct (Hm o st) as (evs1 & Ht1 & Hs1).
  destruct (m o st) as [st1 [a | e]]; simpl in *.
  - destruct (Hf a o st1) as (evs2 & Ht2 & Hs2).
    exists (evs1 ++ evs2). split; [now rewrite Ht2, Ht1, app_assoc |].
    apply fail_fast_prepend; [| exact Hs2]. now inversion Hs1.
  - exists evs1. split; [exact Ht1 |]. exact (fail_fast_raised evs1 e Hs1).
Qed.

Lemma shape_py_write h data : has_shape (py_write h data).
Proof.
  unfold py_write. apply shape_bind; [apply shape_call | intros; apply shape_update_files].
Qed.

(** The loop alone: it ends normally, or on the write that failed. *)
Lemma write_items_runs h items : forall o st,
  exists evs,
    trace (write_items h items o st).1 = trace st ++ evs /\
    ((exists u, (write_items h items o st).2 = Ok u /\
                forallb ev_succeeded evs = true) \/
     (exists oks data e,
        evs = oks ++ [Ev (Write h data) (Raised e)] /\
        forallb ev_succeeded oks = true /\
        (write_items h items o st).2 = Raised e)).
Proof.
  induction items as [| item rest IH]; intros o st; simpl.
  - exists []. rewrite app_nil_r. split; [reflexivity |]. left. now exists tt.
  - rewrite bind_unfold.
    assert (Hw : py_write h (format_line item) o st =
      match o unit (trace st) (Write h (format_line item)) with
      | Ok u =>
          (with_files (with_event st (Ev (Write h (format_line item)) (Ok u)))
             (fun fs => <[h := default EmptyString (fs !! h) +:+ format_line item]> fs),
           Ok tt)
      | Raised e => (with_event st (Ev (Write h (format_line item)) (Raised e)), Raised e)
      end).
    { cbv [py_write mbind M_bind bind do_call update_files with_files with_event].
      simpl. now destruct (o unit (trace st) (Write h (format_line item))). }
    rewrite Hw. destruct (o unit (trace st) (Write h (format_line item))) as [u | e].
    + match goal with |- context [write_items h rest o ?st1] =>
        destruct (IH o st1) as (evs & Ht & Hs) end.
      exists (Ev (Write h (format_line item)) (Ok u) :: evs).
      split; [rewrite Ht; simpl; now rewrite <- app_assoc |].
      destruct Hs as [(u' & Hr & Hok) | (oks & data & e & -> & Hok & Hr)].
      * left. exists u'. now split.
      * right. exists (Ev (Write h (format_line item)) (Ok u) :: oks), data, e.
        now repeat split.
    + exists [Ev (Write h (format_line item)) (Raised e)]. split; [reflexivity |].
      right. now exists [], (format_line item), e.
Qed.

Lemma shape_with_writes h items :
  has_shape (finally (write_items h items) (py_close h)).
Proof.
  intros o st. unfold finally.
  destruct (write_items_runs h items o st) as (evs & Ht & Hs).
  destruct (write_items h items o st) as [st1 r]; simpl in *.
  unfold py_close, do_call. simpl.
  destruct (o unit (trace st1) (Close h)) as [u | e2] eqn:Ec; simpl.
  - destruct Hs as [(u' & -> & Hok) | (oks & data & e & -> & Hok & ->)].
    + exists (evs ++ [Ev (Close h) (Ok u)]).
      split; [now rewrite Ht, app_assoc |].
      apply ff_returns. now rewrite forallb_app, Hok.
    + exists (oks ++ [Ev (Write h data) (Raised e); Ev (Close h) (Ok u)]).
      split; [rewrite Ht, <- !app_assoc; reflexivity |].
      now apply (ff_with oks h data e (Ok u)).
  - destruct Hs as [(u' & -> & Hok) | (oks & data & e & -> & Hok & ->)].
    + exists (evs ++ [Ev (Close h) (Raised e2)]).
      split; [now rewrite Ht, app_assoc |]. now apply ff_call.
    + exists (oks ++ [Ev (Write h data) (Raised e); Ev (Close h) (Raised e2)]).
      split; [rewrite Ht, <- !app_assoc; reflexivity |].
      now apply (ff_with oks h data e (Raised e2)).
Qed.

Lemma shape_write_list_to_file items filename :
  has_shape (_write_list_to_file items filename).
Proof.
  unfold _write_list_to_file, py_open.
  apply shape_bind.
  - apply shape_bind; [apply shape_call | intros _].
    apply shape_bind; [apply shape_update_files | intros _; apply shape_ret].
  - intros h. apply shape_with_writes.
Qed.

End FailFast.

Ltac shape_step :=
  lazymatch goal with
  | |- has_shape (ret _) => apply shape_ret
  | |- has_shape (lift _) => apply shape_lift
  | |- has_shape (print _ _) => apply shape_print
  | |- has_shape (getenv _) => apply shape_getenv
  | |- has_shape (do_call _) => apply shape_call
  | |- has_shape (_write_list_to_file _ _) => apply shape_write_list_to_file
  | |- has_shape cleanup => unfold cleanup
  | |- has_shape (mbind _ _) => apply shape_bind; [| intros ?]
  | |- has_shape (if ?b then _ else _) => destruct b
  | |- has_shape (match ?x with Some _ => _ | None => _ end) => destruct x
  | |- has_shape (let (_, _) := ?x in _) => destruct x
  end.

Section Errors.
Context {ext : Externals}.

Lemma main_worker_fail_fast l n s a : has_shape (main_worker l n s a).
Proof. unfold main_worker. cbv zeta. repeat shape_step. Qed.

Lemma main_fail_fast : has_shape main.
Proof. unfold main. repeat shape_step. Qed.

Lemma last_only_call is_x {A} (c : call A) : last_only is_x (do_call c).
Proof.
  intros o st. exists [], [Ev c (o A (trace st) c)]. simpl. auto.
Qed.

Lemma last_only_bind is_x {A B} (m : M A) (f : A -> M B) :
  emits (fun ev => is_x ev = false) m ->
  (forall a, last_only is_x (f a)) ->
  last_only is_x (m ≫= f).
Proof.
  intros Hm Hf o st. rewrite bind_unfold.
  destruct (Hm o st) as (evs1 & Ht1 & Hall).
  assert (H1 : forallb (fun ev => negb (is_x ev)) evs1 = true).
  { apply forallb_forall. rewrite Forall_forall in Hall.
    intros ev Hin. apply list_elem_of_In in Hin. now rewrite (Hall _ Hin). }
  destruct (m o st) as [st1 [a | e]]; simpl in *.
  - destruct (Hf a o st1) as (before & tail & Ht2 & Hb & Hl).
    exists (evs1 ++ before), tail.
    split; [rewrite Ht2, Ht1, <- !app_assoc; reflexivity |].
    split; [now rewrite forallb_app, H1 | exact Hl].
  - exists evs1, []. rewrite app_nil_r. auto.
Qed.

Lemma main_worker_cleanup_last l n s a : last_only is_destroy (main_worker l n s a).
Proof.
  unfold main_worker. cbv zeta.
  repeat first
    [ apply last_only_bind; [emits_walk; reflexivity | intros ?]
    | lazymatch goal with
      | |- last_only _ (let (_, _) := ?x in _) => destruct x
      end ].
  unfold cleanup. apply last_only_call.
Qed.

Lemma main_spawn_last : last_only is_spawn main.
Proof.
  unfold main.
  repeat (apply last_only_bind; [emits_walk; reflexivity | intros ?]).
  apply last_only_call.
Qed.

(** Where the event that raised sits in a run that fails fast. *)
Lemma raised_in_tail (oks tail before after : list event) ev :
  oks ++ tail = before ++ ev :: after ->
  forallb ev_succeeded oks = true ->
  ev_succeeded ev = false ->
  exists pre, before = oks ++ pre /\ tail = pre ++ ev :: after.
Proof.
  revert before. induction oks as [| x oks IH]; intros before H Hok Hev; simpl in *.
  - now exists before.
  - apply andb_true_iff in Hok. destruct Hok as [Hx Hok].
    destruct before as [| b before]; simpl in H; injection H as -> H.
    + congruence.
    + destruct (IH _ H Hok Hev) as (pre & -> & ->). now exists pre.
Qed.

Lemma raised_not_succeeded ev e : ev_exn ev = Some e -> ev_succeeded ev = false.
Proof. unfold ev_succeeded. now intros ->. Qed.

Lemma after_close_exn e h closing :
  after_close e closing =
  match ev_exn (Ev (Close h) closing) with Some e' => e' | None => e end.
Proof. now destruct closing. Qed.

(** A run that fails fast, read from the event that raised. *)
Lemma fail_fast_at_raise {A} evs (r : result A) before ev after e :
  fail_fast evs r ->
  evs = before ++ ev :: after ->
  ev_exn ev = Some e ->
  (after = [] /\ r = Raised e) \/
  (is_write ev = true /\
   exists closing,
     after = [closing] /\ is_close closing = true /\
     r = Raised (match ev_exn closing with Some e' => e' | None => e end)).
Proof.
  intros Hs He Hev. pose proof (raised_not_succeeded _ _ Hev) as Hn.
  destruct Hs as [evs a H | evs e' H | evs C c e' H | evs h d e' cl H].
  - rewrite He, forallb_app in H. simpl in H. rewrite Hn in H.
    now rewrite andb_false_r in H.
  - rewrite He, forallb_app in H. simpl in H. rewrite Hn in H.
    now rewrite andb_false_r in H.
  - destruct (raised_in_tail _ _ _ _ _ He H Hn) as (pre & _ & Ht).
    destruct pre as [| p pre]; simpl in Ht.
    + injection Ht as <- <-. simpl in Hev. injection Hev as ->. now left.
    + injection Ht as _ Ht. now destruct pre.
  - destruct (raised_in_tail _ _ _ _ _ He H Hn) as (pre & _ & Ht).
    destruct pre as [| p pre]; simpl in Ht.
    + injection Ht as <- <-. simpl in Hev. injection Hev as ->.
      right. split; [reflexivity |]. exists (Ev (Close h) cl).
      split; [reflexivity |]. split; [reflexivity |].
      now rewrite (after_close_exn e h cl).
    + injection Ht as _ Ht. destruct pre as [| q pre]; simpl in Ht.
      * injection Ht as <- <-. destruct cl as [u | e2]; [discriminate |].
        simpl in Hev. injection Hev as ->. now left.
      * injection Ht as _ Ht. now destruct pre.
Qed.

Lemma last_only_absent is_x (before tail evs1 after : list event) ev :
  before ++ tail = evs1 ++ ev :: after ->
  forallb (fun x => negb (is_x x)) before = true ->
  (length tail <= 1)%nat ->
  forallb (fun x => negb (is_x x)) after = true ->
  (after = [] -> is_x ev = false) ->
  forallb (fun x => negb (is_x x)) (evs1 ++ ev :: after) = true.
Proof.
  intros He Hb Hl Ha Hev. rewrite <- He.
  destruct tail as [| x [| y tail]]; simpl in Hl; [| | lia].
  - now rewrite app_nil_r.
  - rewrite forallb_app, Hb. simpl. rewrite andb_true_r.
    destruct after as [| z after _] using rev_ind.
    + apply app_inj_tail in He. destruct He as [_ ->]. now rewrite Hev.
    + rewrite app_comm_cons, app_assoc in He. apply app_inj_tail in He.
      destruct He as [_ ->]. rewrite forallb_app in Ha. simpl in Ha.
      apply andb_true_iff in Ha. destruct Ha as [_ Ha]. now rewrite andb_true_r in Ha.
Qed.


Lemma spawn_calls_none evs :
  forallb (fun x => negb (is_spawn x)) evs = true -> spawn_calls evs = [].
Proof.
  unfold spawn_calls. induction evs as [| ev evs IH]; simpl; [reflexivity |].
  intros H. apply andb_true_iff in H. destruct H as [H1 H2]. specialize (IH H2).
  destruct ev as [A c r]. destruct c; simpl in *; (exact IH || discriminate).
Qed.

(** C8, as amended.  Neither [main] nor [main_worker] handles exceptions:
    when a library call raises, the run ends with an uncaught exception and
    no later step of the script is executed, [cleanup] included -- except
    that a write that fails inside the [with open(...)] block is followed by
    the closing of the file, which the [with] statement does before letting
    the exception through.  The exception that leaves the script is the one
    the call raised, or the one of that closing when it raises too. *)
Theorem errors_propagate :
  (forall l n s a o st before ev after e,
     emitted (main_worker l n s a) o st = before ++ ev :: after ->
     ev_exn ev = Some e ->
     ((after = [] /\ outcome (main_worker l n s a) o st = Raised e) \/
      (is_write ev = true /\
       exists closing,
         after = [closing] /\ is_close closing = true /\
         outcome (main_worker l n s a) o st =
         Raised (match ev_exn closing with Some e' => e' | None => e end))) /\
     (is_destroy ev = false ->
      forallb (fun x => negb (is_destroy x)) (emitted (main_worker l n s a) o st)
      = true)) /\
  (forall o st before ev after e,
     emitted main o st = before ++ ev :: after ->
     ev_exn ev = Some e ->
     after = [] /\ outcome main o st = Raised e /\
     (is_spawn ev = false -> spawn_calls (emitted main o st) = [])).
Proof.
  split.
  - intros l n s a o st before ev after e He Hev.
    destruct (main_worker_fail_fast l n s a o st) as (evs & Ht & Hs).
    rewrite (emitted_app _ _ _ _ Ht) in He.
    pose proof (fail_fast_at_raise _ _ _ _ _ _ Hs He Hev) as Hcases.
    split; [exact Hcases |].
    intros Hnd. rewrite (emitted_app _ _ _ _ Ht), He.
    destruct (main_worker_cleanup_last l n s a o st) as (b & tail & Ht' & Hb & Hl).
    rewrite Ht in Ht'. apply app_inv_head in Ht'. rewrite He in Ht'.
    apply (last_only_absent is_destroy b tail); auto.
    destruct Hcases as [[-> _] | (_ & closing & -> & Hc & _)]; [reflexivity |].
    simpl. destruct closing as [A c r]. now destruct c.
  - intros o st before ev after e He Hev.
    destruct (main_fail_fast o st) as (evs & Ht & Hs).
    rewrite (emitted_app _ _ _ _ Ht) in He.
    assert (Hw : is_write ev = false).
    { assert (Hm : emits (fun ev => is_write ev = false) main)
        by (unfold main; emits_walk; reflexivity).
      apply (emits_In _ _ o st ev Hm).
      rewrite (emitted_app _ _ _ _ Ht), He. apply in_elt. }
    destruct (fail_fast_at_raise _ _ _ _ _ _ Hs He Hev) as [[-> Hr] | [Hw' _]];
      [| congruence].
    split; [reflexivity |]. split; [exact Hr |].
    intros Hns. apply spawn_calls_none.
    rewrite (emitted_app _ _ _ _ Ht), He.
    destruct (main_spawn_last o st) as (b & tail & Ht' & Hb & Hl).
    rewrite Ht in Ht'. apply app_inv_head in Ht'. rewrite He in Ht'.
    apply (last_only_absent is_spawn b tail); auto.
Qed.
End Errors.

(* ===================================================================== *)
(** ** Runs in which every call returns *)
(* ===================================================================== *)

Section RunsOn.
Context {ext : Externals}.

Lemma runs_on_silent {A} (m : M A) :
  (forall o st, trace (m o st).1 = trace st) ->
  (forall o st, exists a, (m o st).2 = Ok a) -> runs_on m.
Proof.
  intros Ht Hr o st. exists []. rewrite Ht, app_nil_r. split; [reflexivity |].
  intros _. apply Hr.
Qed.

Lemma runs_on_ret {A} (a : A) : runs_on (ret a).
Proof. apply runs_on_silent; [reflexivity | intros; now exists a]. Qed.

Lemma runs_on_lift {A} (r : result A) a : r = Ok a -> runs_on (lift r).
Proof. intros ->. apply runs_on_silent; [reflexivity | intros; now exists a]. Qed.

Lemma runs_on_print fmt vals : runs_on (print fmt vals).
Proof. apply runs_on_silent; [reflexivity | intros; now exists tt]. Qed.

Lemma runs_on_getenv name : runs_on (getenv name).
Proof. apply runs_on_silent; [reflexivity | intros; now eexists]. Qed.

Lemma runs_on_update_files f : runs_on (update_files f).
Proof. apply runs_on_silent; [reflexivity | intros; now exists tt]. Qed.

Lemma runs_on_call {A} (c : call A) : runs_on (do_call c).
Proof.
  intros o st. exists [Ev c (o A (trace st) c)]. split; [reflexivity |].
  unfold do_call. simpl. unfold ev_succeeded. simpl.
  destruct (o A (trace st) c) as [a | e]; [now exists a | discriminate].
Qed.

Lemma runs_on_bind {A B} (m : M A) (f : A -> M B) :
  runs_on m -> (forall a, runs_on (f a)) -> runs_on (m ≫= f).
Proof.
  intros Hm Hf o st. rewrite bind_unfold.
  destruct (Hm o st) as (evs1 & Ht1 & Hr1).
  destruct (m o st) as [st1 [a | e]]; simpl in *.
  - destruct (Hf a o st1) as (evs2 & Ht2 & Hr2).
    exists (evs1 ++ evs2). split; [now rewrite Ht2, Ht1, app_assoc |].
    rewrite forallb_app. intros H. apply andb_true_iff in H. now apply Hr2.
  - exists evs1. split; [exact Ht1 |]. intros H.
    destruct (Hr1 H) as [a Ha]. discriminate.
Qed.

Lemma runs_on_finally {A} (body : M A) (on_exit : M unit) :
  runs_on body -> runs_on on_exit -> runs_on (finally body on_exit).
Proof.
  intros Hb Hc o st. unfold finally.
  destruct (Hb o st) as (evs1 & Ht1 & Hr1).
  destruct (body o st) as [st1 r]; simpl in *.
  destruct (Hc o st1) as (evs2 & Ht2 & Hr2).
  exists (evs1 ++ evs2). split.
  - destruct (on_exit o st1) as [st2 [u | e]]; simpl in *;
      now rewrite Ht2, Ht1, app_assoc.
  - rewrite forallb_app. intros H. apply andb_true_iff in H. destruct H as [H1 H2].
    destruct (Hr1 H1) as [a ->]. destruct (Hr2 H2) as [u Hu].
    destruct (on_exit o st1) as [st2 [u' | e]]; simpl in *; [now exists a | discriminate].
Qed.

Lemma runs_on_write_items h items : runs_on (write_items h items).
Proof.
  induction items as [| item rest IH]; simpl.
  - apply runs_on_ret.
  - apply runs_on_bind; [| intros _; exact IH].
    unfold py_write. apply runs_on_bind; [apply runs_on_call |].
    intros _. apply runs_on_update_files.
Qed.

Lemma runs_on_write_list_to_file items filename :
  runs_on (_write_list_to_file items filename).
Proof.
  unfold _write_list_to_file, py_open.
  apply runs_on_bind.
  - apply runs_on_bind; [apply runs_on_call | intros _].
    apply runs_on_bind; [apply runs_on_update_files | intros _; apply runs_on_ret].
  - intros h. apply runs_on_finally; [apply runs_on_write_items | apply runs_on_call].
Qed.

End RunsOn.

Ltac runs_step :=
  lazymatch goal with
  | |- runs_on (ret _) => apply runs_on_ret
  | |- runs_on (print _ _) => apply runs_on_print
  | |- runs_on (getenv _) => apply runs_on_getenv
  | |- runs_on (do_call _) => apply runs_on_call
  | |- runs_on (_write_list_to_file _ _) => apply runs_on_write_list_to_file
  | |- runs_on cleanup => unfold cleanup
  | |- runs_on (mbind _ _) => apply runs_on_bind; [| intros ?]
  | |- runs_on (if ?b then _ else _) => destruct b
  | |- runs_on (match ?x with Some _ => _ | None => _ end) => destruct x
  | |- runs_on (let (_, _) := ?x in _) => destruct x
  end.

Section Completion.
Context {ext : Externals}.

Lemma main_worker_runs_on l n s a q :
  scaled_max_steps n a = Ok q -> runs_on (main_worker l n s a).
Proof.
  intros Hq. unfold main_worker. cbv zeta.
  repeat first [runs_step | (eapply runs_on_lift; exact Hq)].
Qed.

Lemma main_runs_on : runs_on main.
Proof. unfold main. repeat runs_step. Qed.

Lemma runs_on_outcome {A} (m : M A) o st :
  runs_on m -> forallb ev_succeeded (emitted m o st) = true ->
  exists a, outcome m o st = Ok a.
Proof.
  intros Hm H. destruct (Hm o st) as (evs & Ht & Hr).
  rewrite (emitted_app _ _ _ _ Ht) in H. now apply Hr.
Qed.

Lemma has_shape_succeeded {A} (m : M A) o st a :
  has_shape m -> outcome m o st = Ok a ->
  forallb ev_succeeded (emitted m o st) = true.
Proof.
  intros Hm Hok. destruct (Hm o st) as (evs & Ht & Hs).
  rewrite (emitted_app _ _ _ _ Ht). unfold outcome in Hok. rewrite Hok in Hs.
  now inversion Hs.
Qed.

(** A worker runs to its end exactly when every library call of the run
    returned and [MAX_STEPS / world_size] could be computed. *)
Lemma main_worker_completes_iff l n s a o st :
  outcome (main_worker l n s a) o st = Ok tt <->
  forallb ev_succeeded (emitted (main_worker l n s a) o st) = true /\
  exists q, scaled_max_steps n a = Ok q.
Proof.
  split.
  - intros Hok. split.
    + exact (has_shape_succeeded _ _ _ _ (main_worker_fail_fast l n s a) Hok).
    + destruct (main_worker_normal_run _ _ _ _ _ _ Hok)
        as (train & test & start & kw & end_ & data & fin & _ & _ & Ht & _).
      assert (Hin : In (Ev (SummarizerFit s kw) (Ok tt))
                       (emitted (main_worker l n s a) o st)).
      { rewrite Ht, !in_app_iff. do 4 right. left. simpl. auto. }
      apply (emits_In _ _ _ _ _ (main_worker_fit_kwargs l n s a)) in Hin.
      cbv zeta in Hin. destruct Hin as (_ & _ & _ & _ & Hmax & _).
      now exists (Fit.max_steps kw).
  - intros [Hall [q Hq]].
    destruct (runs_on_outcome _ o st (main_worker_runs_on l n s a q Hq) Hall) as [[] H].
    exact H.
Qed.

End Completion.

(* ===================================================================== *)
(** ** The order of the sections *)
(* ===================================================================== *)

Section Phases.
Context {ext : Externals}.

Lemma fits_nil phases : fits phases [].
Proof. induction phases; now constructor. Qed.

Lemma fits_app phases1 phases2 evs1 evs2 :
  fits phases1 evs1 -> fits phases2 evs2 -> fits (phases1 ++ phases2) (evs1 ++ evs2).
Proof.
  intros H1 H2. induction H1; simpl.
  - exact H2.
  - now apply fits_skip.
  - now apply fits_more.
  - now apply fits_one.
Qed.

Lemma fits_all P evs : forallb P evs = true -> fits [any_number P] evs.
Proof.
  induction evs as [| ev evs IH]; simpl; [intros _; apply fits_nil |].
  intros H. apply andb_true_iff in H. destruct H as [H1 H2].
  apply fits_more; auto.
Qed.

Lemma follows_silent phases {A} (m : M A) :
  (forall o st, trace (m o st).1 = trace st) -> follows phases m.
Proof.
  intros H o st. exists []. rewrite H, app_nil_r. split; [reflexivity | apply fits_nil].
Qed.

Lemma follows_call P phases {A} (c : call A) :
  (forall r, P (Ev c r) = true) -> follows (at_most_one P :: phases) (do_call c).
Proof.
  intros H o st. eexists. split; [reflexivity |].
  apply fits_one; [apply H | apply fits_nil].
Qed.

Lemma follows_emits P phases {A} (m : M A) :
  emits (fun ev => P ev = true) m -> follows (any_number P :: phases) m.
Proof.
  intros H o st. destruct (H o st) as (evs & Ht & Hall).
  exists evs. split; [exact Ht |].
  rewrite <- (app_nil_r evs). apply (fits_app [any_number P] phases evs []);
    [| apply fits_nil].
  apply fits_all. apply forallb_forall. rewrite Forall_forall in Hall.
  intros ev Hin. apply Hall. now apply list_elem_of_In.
Qed.

Lemma follows_bind phases1 phases2 {A B} (m : M A) (f : A -> M B) :
  follows phases1 m -> (forall a, follows phases2 (f a)) ->
  follows (phases1 ++ phases2) (m ≫= f).
Proof.
  intros Hm Hf o st. rewrite bind_unfold.
  destruct (Hm o st) as (evs1 & Ht1 & Hs1).
  destruct (m o st) as [st1 [a | e]]; simpl in *.
  - destruct (Hf a o st1) as (evs2 & Ht2 & Hs2).
    exists (evs1 ++ evs2). split; [now rewrite Ht2, Ht1, app_assoc |].
    now apply fits_app.
  - exists evs1. split; [exact Ht1 |].
    rewrite <- (app_nil_r evs1). apply fits_app; [exact Hs1 | apply fits_nil].
Qed.

(** A step that makes no call, and a step that fills the next phase. *)
Lemma follows_bind_silent phases {A B} (m : M A) (f : A -> M B) :
  (forall o st, trace (m o st).1 = trace st) ->
  (forall a, follows phases (f a)) -> follows phases (m ≫= f).
Proof.
  intros Hm Hf. apply (follows_bind [] phases); [now apply follows_silent | exact Hf].
Qed.

Lemma follows_bind_phase ph phases {A B} (m : M A) (f : A -> M B) :
  follows [ph] m -> (forall a, follows phases (f a)) -> follows (ph :: phases) (m ≫= f).
Proof. intros Hm Hf. now apply (follows_bind [ph] phases). Qed.

(** The sections of a worker come in the order of [worker_phases], in every
    run. *)
Lemma main_worker_follows l n s a : follows (worker_phases l) (main_worker l n s a).
Proof.
  unfold main_worker, worker_phases. cbv zeta.
  do 5 (apply follows_bind_silent; [reflexivity | intros _]).
  apply follows_bind_phase; [now apply follows_call | intros _].
  do 2 (apply follows_bind_silent; [reflexivity | intros _]).
  apply follows_bind_phase.
  { destruct (py_in l [-1; 0]); simpl;
      [now apply follows_silent | now apply follows_call]. }
  intros _.
  apply follows_bind_phase.
  { apply follows_emits. emits_walk; reflexivity. }
  intros [ext_sum_train ext_sum_test].
  apply follows_bind_phase.
  { destruct (py_in l [-1; 0]); simpl;
      [now apply follows_call | now apply follows_silent]. }
  intros _.
  apply follows_bind_phase; [now apply follows_call | intros start].
  apply follows_bind_silent; [reflexivity | intros _].
  apply follows_bind_silent; [reflexivity | intros scaled].
  apply follows_bind_phase; [now apply follows_call | intros _].
  apply follows_bind_phase; [now apply follows_call | intros end_].
  apply follows_bind_silent; [reflexivity | intros _].
  apply follows_bind_phase; [now apply follows_call | intros _].
  apply follows_bind_phase.
  { apply follows_emits. emits_walk; reflexivity. }
  intros _. unfold cleanup. now apply follows_call.
Qed.

End Phases.

(* ===================================================================== *)
(** ** Every run, step by step *)
(* ===================================================================== *)

Section MoreStepping.
Context {ext : Externals}.

Lemma emitted_ret_bind {A B} (a : A) (k : A -> M B) o st :
  emitted (ret a ≫= k) o st = emitted (k a) o st.
Proof. reflexivity. Qed.

Lemma emitted_lift_bind {A B} (r : result A) (k : A -> M B) o st :
  emitted (lift r ≫= k) o st =
  match r with
  | Ok a => emitted (k a) o st
  | Raised _ => []
  end.
Proof.
  destruct r as [a | e]; [reflexivity |]. apply emitted_app. simpl.
  now rewrite app_nil_r.
Qed.

Lemma bind_assoc {A B C} (m : M A) (f : A -> M B) (g : B -> M C) o st :
  ((m ≫= f) ≫= g) o st = (m ≫= (fun x => f x ≫= g)) o st.
Proof.
  rewrite (bind_unfold (m ≫= f) g), (bind_unfold m f), (bind_unfold m).
  now destruct (m o st) as [st1 [a | e]].
Qed.

Lemma emitted_bind_assoc {A B C} (m : M A) (f : A -> M B) (g : B -> M C) o st :
  emitted ((m ≫= f) ≫= g) o st = emitted (m ≫= (fun x => f x ≫= g)) o st.
Proof. unfold emitted. now rewrite bind_assoc. Qed.

(** Looking for an event of one kind in a list that starts with an event of
    another kind, or with the only one of that kind. *)
Lemma split_after (Q : event -> bool) e l before y after :
  e :: l = before ++ y :: after -> Q e = false -> Q y = true ->
  exists b, before = e :: b /\ l = b ++ y :: after.
Proof.
  destruct before as [| b before]; simpl; intros H He Hy; injection H as -> H.
  - congruence.
  - now exists before.
Qed.

Lemma split_at_head (Q : event -> bool) x l before y after :
  x :: l = before ++ y :: after ->
  Forall (fun e => Q e = false) l -> Q y = true ->
  before = [] /\ y = x /\ after = l.
Proof.
  destruct before as [| b before]; simpl; intros H Hl Hy; injection H as -> H.
  - auto.
  - subst l. rewrite Forall_forall in Hl.
    assert (Q y = false) by (apply Hl, list_elem_of_In, in_elt). congruence.
Qed.

End MoreStepping.

(** Moving an equation [e1 :: ... :: rest = before ++ y :: after] past the
    events that are not of the kind of [y]. *)
Ltac peel Q H Hy :=
  repeat (apply (split_after Q) in H; [| reflexivity | exact Hy];
          let b := fresh "b" in
          let E := fresh "E" in
          destruct H as (b & E & H); subst).

Ltac no_such Q H Hy :=
  peel Q H Hy;
  match type of H with
  | [] = ?b ++ _ :: _ => now destruct b
  end.

Ltac silent_steps H :=
  repeat first
    [ rewrite emitted_print_bind in H
    | rewrite emitted_ret_bind in H
    | rewrite emitted_bind_assoc in H ].

Ltac run_step Q H Hq :=
  first
    [ progress silent_steps H
    | call_step H; [| no_such Q H Hq]
    | rewrite emitted_lift_bind in H;
      match type of H with
      | context [match ?r with Ok _ => _ | Raised _ => _ end] =>
          destruct r eqn:?; [| no_such Q H Hq]
      end
    | match type of H with
      | context [let (_, _) := ?p in _] => destruct p
      end ].

Section Reach.
Context {ext : Externals}.

Lemma main_worker_final_after_barrier l n s a o st before ev after :
  emitted (main_worker l n s a) o st = before ++ ev :: after ->
  is_final ev || is_destroy ev = true ->
  exists train test data start kw end_ pre,
    data_acquired s a train test data /\
    Fit.train_dataset kw = train /\
    before =
      [Ev (InitProcessGroup "nccl" (Args.dist_url a) (Args.node_count a * n)
             (Args.rank a * n + l)) (Ok tt)] ++
      barrier_before_data l ++ data ++ barrier_after_data l ++
      [Ev Time (Ok start); Ev (SummarizerFit s kw) (Ok tt); Ev Time (Ok end_)] ++
      barrier_after_fit ++ pre.
Proof.
  unfold main_worker, barrier_before_data, barrier_after_data, barrier_after_fit,
    data_acquired, TOP_N_of, is_full_run.
  cbv zeta.
  set (Q := fun ev => is_final ev || is_destroy ev).
  destruct (py_in l [-1; 0]) eqn:El;
  destruct (Args.train_file a) as [train_file |] eqn:Etr;
  destruct (Args.test_file a) as [test_file |] eqn:Ete; simpl; intros H Hq.
  all: repeat run_step Q H Hq.
  all: peel Q H Hq.
  all: repeat match goal with u : unit |- _ => destruct u end.
  all: do 7 eexists.
  all: (split; [first [reflexivity | do 2 eexists; reflexivity] |]).
  all: split; revgoals; [simpl; reflexivity | reflexivity].
Qed.

Lemma main_worker_fit_after_data l n s a o st before s' kw r after :
  emitted (main_worker l n s a) o st = before ++ Ev (SummarizerFit s' kw) r :: after ->
  exists train test data start,
    data_acquired s a train test data /\
    Fit.train_dataset kw = train /\
    before =
      [Ev (InitProcessGroup "nccl" (Args.dist_url a) (Args.node_count a * n)
             (Args.rank a * n + l)) (Ok tt)] ++
      barrier_before_data l ++ data ++ barrier_after_data l ++ [Ev Time (Ok start)].
Proof.
  unfold main_worker, barrier_before_data, barrier_after_data,
    data_acquired, TOP_N_of, is_full_run.
  cbv zeta.
  assert (Hq : is_fit_call (Ev (SummarizerFit s' kw) r) = true) by reflexivity.
  destruct (py_in l [-1; 0]) eqn:El;
  destruct (Args.train_file a) as [train_file |] eqn:Etr;
  destruct (Args.test_file a) as [test_file |] eqn:Ete; simpl; intros H.
  all: repeat run_step is_fit_call H Hq.
  all: match type of H with
       | context [emitted (do_call ?c ≫= ?k) ?o' ?st'] =>
           destruct (emitted_call_bind (fun ev => is_fit_call ev = false) c k o' st')
             as (rest & He & Hall & _);
             [intros; emits_walk; reflexivity | rewrite He in H; clear He]
       end.
  all: peel is_fit_call H Hq.
  all: apply (split_at_head is_fit_call) in H; [| exact Hall | exact Hq].
  all: destruct H as (-> & H & ->).
  all: apply (f_equal fit_call) in H; simpl in H; injection H as -> ->.
  all: repeat match goal with u : unit |- _ => destruct u end.
  all: do 4 eexists.
  all: (split; [first [reflexivity | do 2 eexists; reflexivity] |]).
  all: split; reflexivity.
Qed.

End Reach.

(* ===================================================================== *)
(** ** The sections of a worker run *)
(* ===================================================================== *)

Section WorkerSections.
Context {ext : Externals}.



Lemma main_worker_init_calls l n s a o st :
  init_calls (emitted (main_worker l n s a) o st) =
  [("nccl", Args.dist_url a, Args.node_count a * n, Args.rank a * n + l)].
Proof.
  destruct (main_worker_joins_first l n s a o st) as (rest & -> & Hrest).
  unfold init_calls. simpl. f_equal.
  induction rest as [| ev rest IH]; simpl in *; [reflexivity |].
  apply andb_true_iff in Hrest. destruct Hrest as [H1 H2]. specialize (IH H2).
  destruct ev as [A c r]. destruct c; simpl in *; (exact IH || discriminate).
Qed.


End WorkerSections.

(* ===================================================================== *)
(** ** Concrete runs *)
(* ===================================================================== *)


(** One barrier only, with no library call raising: with [--node_count 0]
    the division fails after barrier (b), before [fit]. *)
Example zero_nodes_one_barrier :
  forallb ev_succeeded
    (emitted (main_worker 0 1 sample_summarizer args_zero_nodes) oracle_ok fresh) = true /\
  count_barriers
    (emitted (main_worker 0 1 sample_summarizer args_zero_nodes) oracle_ok fresh) = 1%nat /\
  outcome (main_worker 0 1 sample_summarizer args_zero_nodes) oracle_ok fresh
    = Raised ZeroDivisionError.
Proof. vm_compute. auto. Qed.



(** A prediction with a newline inside: one summary, two lines. *)
Lemma multiline_summary_example :
  outcome (main_worker 0 1 sample_summarizer Args.defaults) oracle_multiline fresh
    = Ok tt /\
  predict_calls
    (emitted (main_worker 0 1 sample_summarizer Args.defaults) oracle_multiline fresh)
    = [(sample_summarizer, [5; 6]%nat, 128, Ok ["a" +:+ newline +:+ "b"])] /\
  files (main_worker 0 1 sample_summarizer Args.defaults oracle_multiline fresh).1
    !! "./generated_summaries.txt" = Some ("a" +:+ newline +:+ "b" +:+ newline) /\
  file_lines ("a" +:+ newline +:+ "b" +:+ newline) = ["a"; "b"] /\
  length (file_lines ("a" +:+ newline +:+ "b" +:+ newline)) <>
  length ["a" +:+ newline +:+ "b"].
Proof. vm_compute. repeat split; discriminate. Qed.

Lemma summary_file_lines_witness :
  outcome (main_worker 0 1 sample_summarizer Args.defaults) oracle_ok fresh = Ok tt /\
  exists test prediction,
    predict_calls
      (emitted (main_worker 0 1 sample_summarizer Args.defaults) oracle_ok fresh)
      = [(sample_summarizer, test, 128, Ok prediction)] /\
    files (main_worker 0 1 sample_summarizer Args.defaults oracle_ok fresh).1
      !! os_path_join (Args.output_dir Args.defaults)
           (Args.summary_filename Args.defaults) =
      Some (fold_right (fun item rest => item +:+ newline +:+ rest)
              EmptyString prediction).
Proof.
  assert (Hok : outcome (main_worker 0 1 sample_summarizer Args.defaults)
                  oracle_ok fresh = Ok tt) by reflexivity.
  split; [exact Hok |].
  destruct (summary_file_lines 0 1 sample_summarizer Args.defaults oracle_ok fresh Hok)
    as (test & prediction & Hc & Hf & _); [split; [now right | reflexivity] |].
  exists test, prediction. split; [exact Hc | exact Hf].
Defined.

Lemma prediction_slice_witness :
  Args.parsed Args.defaults /\
  outcome (main_worker 0 1 sample_summarizer Args.defaults) oracle_ok fresh = Ok tt /\
  exists ext_sum_test prediction,
    predict_calls
      (emitted (main_worker 0 1 sample_summarizer Args.defaults) oracle_ok fresh)
      = [(sample_summarizer, py_slice ext_sum_test 0 (-1), 128, Ok prediction)] /\
    py_slice ext_sum_test 0 (-1) = removelast ext_sum_test.
Proof.
  assert (Hp : Args.parsed Args.defaults) by (split; [now right | simpl; tauto]).
  assert (Hok : outcome (main_worker 0 1 sample_summarizer Args.defaults)
                  oracle_ok fresh = Ok tt) by reflexivity.
  split; [exact Hp |]. split; [exact Hok |].
  destruct (prediction_slice 0 1 sample_summarizer Args.defaults oracle_ok fresh Hp Hok)
    as (train & test & data & evs1 & evs2 & prediction & _ & _ & Hc & Hfull & _);
    [split; [now right | reflexivity] |].
  exists test, prediction. split; [exact Hc |]. now apply Hfull.
Defined.

(** The rank-0 worker when the write of the first summary fails: the file
    is closed after the failed write, and when that closing fails too, its
    exception is the one that leaves the worker.  [cleanup] does not run. *)
Lemma close_after_failed_write_example :
  List.filter (fun ev => is_final ev || is_destroy ev)
    (emitted (main_worker 0 1 sample_summarizer Args.defaults) oracle_write_fails fresh)
  = [Ev (SaveModel sample_summarizer "./dist_extsum_model.pt") (Ok tt);
     Ev (Predict sample_summarizer [5; 6]%nat 128)
        (Ok ["first summary"; "second summary"]);
     Ev (Open "./generated_summaries.txt" "w") (Ok tt);
     Ev (Write "./generated_summaries.txt" (format_line "first summary"))
        (Raised (LibraryError "write failed"));
     Ev (Close "./generated_summaries.txt") (Ok tt)] /\
  outcome (main_worker 0 1 sample_summarizer Args.defaults) oracle_write_fails fresh
  = Raised (LibraryError "write failed") /\
  outcome (main_worker 0 1 sample_summarizer Args.defaults)
    oracle_write_and_close_fail fresh
  = Raised (LibraryError "close failed").
Proof. vm_compute. auto. Qed.

Lemma errors_propagate_witness :
  forallb (fun x => negb (is_destroy x))
    (emitted (main_worker 0 1 sample_summarizer Args.defaults) oracle_write_fails fresh)
  = true.
Proof.
  refine (proj2 (proj1 errors_propagate 0 1 sample_summarizer Args.defaults
            oracle_write_fails fresh
            (firstn 12 (emitted (main_worker 0 1 sample_summarizer Args.defaults)
                          oracle_write_fails fresh))
            (Ev (Write "./generated_summaries.txt" (format_line "first summary"))
                (Raised (LibraryError "write failed")))
            [Ev (Close "./generated_summaries.txt") (Ok tt)]
            (LibraryError "write failed") _ _) _).
  - vm_compute. reflexivity.
  - reflexivity.
  - reflexivity.
Defined.


Lemma module_import_environment_witness :
  outcome module_import oracle_ok fresh = Ok tt /\
  exists n,
    emitted module_import oracle_ok fresh = [Ev DeviceCount (Ok n)] /\
    environ (module_import oracle_ok fresh).1 !! "OMP_NUM_THREADS" = Some (pretty n).
Proof.
  assert (Hok : outcome module_import oracle_ok fresh = Ok tt) by reflexivity.
  split; [exact Hok |].
  destruct (module_import_environment oracle_ok fresh Hok) as (n & He & _ & Hn & _).
  exists n. split; [exact He | exact Hn].
Defined.

(** With two devices and an empty environment, the import leaves exactly
    these three variables. *)
Example module_import_two_devices :
  map_to_list (environ (module_import oracle_ok fresh).1) =
  [("OMP_NUM_THREADS", "2"); ("KMP_AFFINITY", "verbose"); ("NCCL_IB_DISABLE", "0")].
Proof. vm_compute. reflexivity. Qed.

(** A quick run on stored datasets: both are loaded, nothing is downloaded
    or preprocessed, and [fit] gets [1e1 / 1] steps and [5e2] warm-up
    steps. *)
Example stored_datasets_quick_run :
  outcome (main_worker 0 1 sample_summarizer args_with_files) oracle_ok fresh = Ok tt /\
  List.filter is_data
    (emitted (main_worker 0 1 sample_summarizer args_with_files) oracle_ok fresh)
  = [Ev (TorchLoad "./train.pt") (Ok [8; 9]%nat);
     Ev (TorchLoad "./test.pt") (Ok [8; 9]%nat)] /\
  predict_calls
    (emitted (main_worker 0 1 sample_summarizer args_with_files) oracle_ok fresh)
  = [(sample_summarizer, [8; 9]%nat, 128, Ok ["first summary"; "second summary"])] /\
  exists kw,
    In (Ev (SummarizerFit sample_summarizer kw) (Ok tt))
       (emitted (main_worker 0 1 sample_summarizer args_with_files) oracle_ok fresh) /\
    Fit.max_steps kw = PyFloat (inject_Z 10 / inject_Z 1) /\
    Fit.warmup_steps kw = PyFloat (inject_Z 500).
Proof.
  split; [reflexivity |]. split; [vm_compute; reflexivity |].
  split; [vm_compute; reflexivity |].
  eexists. split; [find_event |]. split; reflexivity.
Qed.

(* ===================================================================== *)
(** ** Further properties of the script *)
(* ===================================================================== *)

Section UnusedFlags.
Context {ext : Externals}.

(** X1.  In a quick run [--max_steps] and [--warmup_steps] are not used, as
    their help texts say: whatever their values, the worker is the same. *)
Theorem quick_run_ignores_steps l n s a max_steps warmup_steps :
  is_full_run a = false ->
  main_worker l n s (with_steps a max_steps warmup_steps) = main_worker l n s a.
Proof.
  unfold is_full_run. intros H. unfold main_worker.
  cbn [with_steps Args.rank Args.dist_url Args.node_count Args.cache_dir Args.data_dir
       Args.output_dir Args.quick_run Args.model_name Args.encoder Args.max_pos_length
       Args.learning_rate Args.batch_size Args.max_steps Args.warmup_steps Args.top_n
       Args.summary_filename Args.model_filename Args.train_file Args.test_file].
  rewrite H. reflexivity.
Qed.

(** X2.  [main_worker] never reads [--top_n], [--cache_dir], [--model_name],
    [--encoder] or [--max_pos_length]: the worker is the same whatever
    their values.  In particular [top_n], the "number of sentences selected
    in prediction", does not reach [predict]. *)
Theorem worker_ignores_model_flags l n s a cache_dir model_name encoder max_pos_length top_n :
  main_worker l n s (with_model_flags a cache_dir model_name encoder max_pos_length top_n)
  = main_worker l n s a.
Proof. reflexivity. Qed.
End UnusedFlags.

(** *** Relations every step of a run keeps *)

Section StateRelations.
Context {ext : Externals}.

Section Keeps.
Variable R : state -> state -> Prop.
Hypothesis R_refl : forall st, R st st.
Hypothesis R_trans : forall st1 st2 st3, R st1 st2 -> R st2 st3 -> R st1 st3.
Hypothesis R_event : forall st ev, R st (with_event st ev).

Lemma keeps_ret {A} (a : A) : keeps R (ret a).
Proof. intros o st. apply R_refl. Qed.

Lemma keeps_lift {A} (r : result A) : keeps R (lift r).
Proof. intros o st. apply R_refl. Qed.

Lemma keeps_getenv name : keeps R (getenv name).
Proof. intros o st. apply R_refl. Qed.

Lemma keeps_call {A} (c : call A) : keeps R (do_call c).
Proof. intros o st. apply R_event. Qed.

Lemma keeps_bind {A B} (m : M A) (f : A -> M B) :
  keeps R m -> (forall a, keeps R (f a)) -> keeps R (m ≫= f).
Proof.
  intros Hm Hf o st. rewrite bind_unfold. specialize (Hm o st).
  destruct (m o st) as [st1 [a | e]]; simpl in *; [| exact Hm].
  eapply R_trans; [exact Hm | apply Hf].
Qed.

Lemma keeps_finally {A} (body : M A) (on_exit : M unit) :
  keeps R body -> keeps R on_exit -> keeps R (finally body on_exit).
Proof.
  intros Hb Hc o st. unfold finally. specialize (Hb o st).
  destruct (body o st) as [st1 r]; simpl in *. specialize (Hc o st1).
  destruct (on_exit o st1) as [st2 [u | e]]; simpl in *; eapply R_trans; eauto.
Qed.
End Keeps.

Lemma returns_py_open path mode h : returns (py_open path mode) h -> h = path.
Proof.
  intros (o & st & st' & H). unfold py_open in H.
  apply bind_Ok in H. destruct H as (u & st1 & _ & H).
  apply bind_Ok in H. destruct H as (u' & st2 & _ & H).
  apply ret_Ok in H. now destruct H.
Qed.

End StateRelations.

Section OwnFiles.
Context {ext : Externals}.

Lemma emits_write_lines P h items :
  (forall item r, P (Ev (Write h (format_line item)) r)) -> emits P (write_items h items).
Proof.
  intros H. induction items as [| item rest IH]; simpl.
  - apply emits_ret.
  - apply emits_bind; [apply emits_py_write; apply H | intros _ _; exact IH].
Qed.

Lemma emits_write_list_to_file_on P items filename :
  (forall r, P (Ev (Open filename "w") r)) ->
  (forall item r, P (Ev (Write filename (format_line item)) r)) ->
  (forall r, P (Ev (Close filename) r)) ->
  emits P (_write_list_to_file items filename).
Proof.
  intros Ho Hw Hc. unfold _write_list_to_file.
  apply emits_bind; [now apply emits_py_open | intros h Hh].
  apply returns_py_open in Hh. subst h.
  apply emits_finally; [now apply emits_write_lines | now apply emits_call].
Qed.

(** X3.  The file operations of the script itself: in every run, failing or
    not, a worker opens no file but [os.path.join(output_dir,
    summary_filename)], in mode ["w"]; every write is one line, an item
    followed by a newline, on that file; nothing else is closed; a worker
    other than the one with [local_rank] in [{-1, 0}] and [args.rank = 0]
    opens, writes and closes nothing; and neither does [main].  (What the
    library calls do to the disk is not the script's.) *)
Theorem own_file_operations l n s a o st :
  let evs := emitted (main_worker l n s a) o st in
  let path := os_path_join (Args.output_dir a) (Args.summary_filename a) in
  (forall p mode r, In (Ev (Open p mode) r) evs -> p = path /\ mode = "w") /\
  (forall h data r, In (Ev (Write h data) r) evs ->
     h = path /\ exists item, data = item +:+ newline) /\
  (forall h r, In (Ev (Close h) r) evs -> h = path) /\
  (~ ((l = -1 \/ l = 0) /\ Args.rank a = 0) ->
   forall ev, In ev evs -> is_final ev = false) /\
  (forall ev, In ev (emitted main o st) -> is_final ev = false).
Proof.
  cbv zeta.
  assert (He : emits (fun ev =>
      match ev with
      | Ev (Open p mode) _ =>
          p = os_path_join (Args.output_dir a) (Args.summary_filename a) /\ mode = "w"
      | Ev (Write h data) _ =>
          h = os_path_join (Args.output_dir a) (Args.summary_filename a) /\
          exists item, data = item +:+ newline
      | Ev (Close h) _ =>
          h = os_path_join (Args.output_dir a) (Args.summary_filename a)
      | _ => True
      end) (main_worker l n s a)).
  { unfold main_worker. cbv zeta.
    repeat first
      [ apply emits_write_list_to_file_on; intros
      | emits_step ];
      simpl; auto.
    split; [reflexivity |]. now eexists. }
  split; [| split; [| split; [| split]]].
  - intros p mode r Hin. exact (emits_In _ _ _ _ _ He Hin).
  - intros h data r Hin. exact (emits_In _ _ _ _ _ He Hin).
  - intros h r Hin. exact (emits_In _ _ _ _ _ He Hin).
  - intros Hn ev Hin.
    assert (Hf : emits (fun ev => is_final ev = true -> on_rank_zero l a = true)
                   (main_worker l n s a)).
    { unfold main_worker. cbv zeta. emits_walk; simpl; intros; try discriminate;
        assumption. }
    pose proof (emits_In _ _ _ _ _ Hf Hin) as Hfin. cbv beta in Hfin.
    destruct (is_final ev); [| reflexivity].
    elim Hn. apply on_rank_zero_spec. now apply Hfin.
  - intros ev Hin.
    assert (Hm : emits (fun ev => is_final ev = false) main)
      by (unfold main; emits_walk; reflexivity).
    now apply (emits_In _ _ _ _ _ Hm) in Hin.
Qed.

End OwnFiles.

Section WorldSize.
Context {ext : Externals}.

(** *** World size zero *)

Lemma fails_with_lift o e {A} : fails_with o e (lift (Raised e : result A)).
Proof. intros st. now exists st. Qed.

Lemma fails_with_bind o e {A B} (m : M A) (f : A -> M B) :
  completes o m -> (forall a, fails_with o e (f a)) -> fails_with o e (m ≫= f).
Proof.
  intros Hm Hf st. rewrite bind_unfold.
  destruct (Hm st) as (st1 & a & ->). apply Hf.
Qed.

Lemma fails_with_bind_now o e {A B} (m : M A) (f : A -> M B) :
  fails_with o e m -> fails_with o e (m ≫= f).
Proof.
  intros Hm st. rewrite bind_unfold. destruct (Hm st) as (st1 & ->). now exists st1.
Qed.

Lemma main_worker_zero_world_size l n s a :
  Args.node_count a * n = 0 ->
  emits (fun ev => is_fit_call ev = false /\ is_final ev = false /\ is_destroy ev = false)
        (main_worker l n s a).
Proof.
  intros Hz. unfold main_worker. cbv zeta. rewrite Hz, truediv_zero.
  emits_walk; try discriminate; simpl; auto.
Qed.

Lemma main_worker_divides_by_zero l n s a o :
  never_raises o -> Args.node_count a * n = 0 ->
  fails_with o ZeroDivisionError (main_worker l n s a).
Proof.
  intros Ho Hz. unfold main_worker. cbv zeta. rewrite Hz, truediv_zero.
  repeat first
    [ apply fails_with_bind_now; apply fails_with_lift
    | apply fails_with_bind; [repeat completes_step Ho | intros ?]
    | lazymatch goal with
      | |- fails_with _ _ (let (_, _) := ?x in _) => destruct x
      end ].
Qed.


(** *** The failures of the script's own *)

Lemma truediv_overflow x d :
  d <> 0 -> division_overflows x d = true -> truediv x d = Raised OverflowError.
Proof.
  intros Hd. unfold truediv, division_overflows. destruct x as [z | q].
  - destruct (Z.eqb_spec d 0); [contradiction |]. now intros ->.
  - now intros ->.
Qed.

Lemma truediv_defined x d :
  d <> 0 -> division_overflows x d = false ->
  truediv x d = Ok (PyFloat (num_value x / inject_Z d)).
Proof.
  intros Hd. unfold truediv, division_overflows. destruct x as [z | q]; simpl.
  - destruct (Z.eqb_spec d 0); [contradiction |]. now intros ->.
  - intros ->. now destruct (Z.eqb_spec d 0).
Qed.

Lemma main_worker_returns l n s a o st q :
  never_raises o -> scaled_max_steps n a = Ok q ->
  outcome (main_worker l n s a) o st = Ok tt.
Proof.
  intros Ho Hq.
  assert (Hc : completes o (main_worker l n s a)).
  { unfold main_worker. cbv zeta.
    repeat first [completes_step Ho | (eapply completes_lift; exact Hq)]. }
  unfold outcome. destruct (Hc st) as (st' & [] & ->). reflexivity.
Qed.

Lemma main_worker_division_fails l n s a o e :
  never_raises o -> scaled_max_steps n a = Raised e ->
  fails_with o e (main_worker l n s a).
Proof.
  intros Ho He. unfold scaled_max_steps, MAX_STEPS_of, is_full_run in He.
  unfold main_worker. cbv zeta. rewrite He.
  repeat first
    [ apply fails_with_bind_now; apply fails_with_lift
    | apply fails_with_bind; [repeat completes_step Ho | intros ?]
    | lazymatch goal with
      | |- fails_with _ _ (let (_, _) := ?x in _) => destruct x
      end ].
Qed.

Lemma main_completes o : never_raises o -> completes o main.
Proof.
  intros Ho. unfold main.
  apply completes_bind; [intros st; now eexists _, _ | intros v].
  repeat completes_step Ho.
Qed.


End WorldSize.

Section Ranks.
Context {ext : Externals}.

(** *** Global ranks *)

(** X6.  On nodes with [n] devices each, the ranks two workers hand to
    [init_process_group] are equal only for the same node rank and the same
    local rank; and for a node rank in [0 .. node_count-1] the rank lies in
    [0 .. world_size-1]. *)
Theorem global_ranks_distinct_and_in_range
    n l1 l2 s1 s2 a1 a2 o1 st1 o2 st2 backend1 url1 world1 rank1 backend2 url2 world2 rank2 :
  0 <= l1 < n -> 0 <= l2 < n ->
  In (backend1, url1, world1, rank1)
     (init_calls (emitted (main_worker l1 n s1 a1) o1 st1)) ->
  In (backend2, url2, world2, rank2)
     (init_calls (emitted (main_worker l2 n s2 a2) o2 st2)) ->
  (rank1 = rank2 <-> Args.rank a1 = Args.rank a2 /\ l1 = l2) /\
  (0 <= Args.rank a1 < Args.node_count a1 -> 0 <= rank1 < world1).
Proof.
  intros H1 H2 Hc1 Hc2. rewrite main_worker_init_calls in Hc1, Hc2.
  destruct Hc1 as [Hc1 | []]. destruct Hc2 as [Hc2 | []].
  injection Hc1 as _ _ <- <-. injection Hc2 as _ _ <- <-.
  split; [split |].
  - intros E.
    assert (Args.rank a1 = Args.rank a2) by nia. split; [assumption | nia].
  - intros [-> ->]. reflexivity.
  - intros Hr. split; nia.
Qed.

(** *** The launcher and the workers make different calls *)

(** X7.  [main] only parses the command line, makes directories, counts
    devices, builds the processor and the summarizer and spawns; a worker
    makes none of these calls. *)
Theorem launcher_and_worker_calls l n s a o st :
  (forall ev, In ev (emitted main o st) -> is_launch ev = true) /\
  (forall ev, In ev (emitted (main_worker l n s a) o st) -> is_launch ev = false).
Proof.
  split; intros ev Hin.
  - assert (He : emits (fun ev => is_launch ev = true) main)
      by (unfold main; emits_walk; reflexivity).
    now apply (emits_In _ _ _ _ _ He) in Hin.
  - assert (He : emits (fun ev => is_launch ev = false) (main_worker l n s a))
      by (unfold main_worker; cbv zeta; emits_walk; reflexivity).
    now apply (emits_In _ _ _ _ _ He) in Hin.
Qed.

(** *** The other arguments of fit *)

(** X8.  Every [fit] call of a worker is made on the summarizer the worker
    was given, with the batch size and the learning rate of the command line
    as they are (not scaled), [num_gpus] and [world_size] both
    [node_count * ngpus_per_node], the worker's local rank,
    [gradient_accumulation_steps = 1], [report_every = 100], [verbose] on and
    gradient clipping off. *)
Theorem fit_hyperparameters l n s a o st s' kw r :
  In (Ev (SummarizerFit s' kw) r) (emitted (main_worker l n s a) o st) ->
  s' = s /\
  Fit.batch_size kw = Args.batch_size a /\
  Fit.learning_rate kw = Args.learning_rate a /\
  Fit.num_gpus kw = Args.node_count a * n /\
  Fit.world_size kw = Args.node_count a * n /\
  Fit.local_rank kw = l /\
  Fit.gradient_accumulation_steps kw = 1 /\
  Fit.report_every kw = 100 /\
  Fit.verbose kw = true /\
  Fit.clip_grad_norm kw = false.
Proof.
  intros Hin.
  apply (emits_In _ _ _ _ _ (main_worker_fit_kwargs l n s a)) in Hin.
  cbv zeta in Hin.
  destruct Hin as (Hs & Hg & Hb & Ha & _ & Hlr & _ & Hv & Hre & Hc & Hl & _ & Hw & _).
  repeat split; assumption.
Qed.

(** *** Small test sets *)

(** X9.  The documents of the one [predict] call of a complete run of the
    rank-0 worker are [ext_sum_test[0:TOP_N]] of the test set the data
    section ended with: in a full run all but the last, so none when the
    test set has at most one document; in a quick run the first ten, so the
    whole test set when it has at most ten. *)
Theorem small_test_sets l n s a o st :
  Args.parsed a ->
  outcome (main_worker l n s a) o st = Ok tt ->
  (l = -1 \/ l = 0) /\ Args.rank a = 0 ->
  exists train ext_sum_test data evs1 evs2 documents prediction,
    data_acquired s a train ext_sum_test data /\
    emitted (main_worker l n s a) o st = evs1 ++ data ++ evs2 /\
    predict_calls (emitted (main_worker l n s a) o st) =
      [(s, documents, 128, Ok prediction)] /\
    (Args.quick_run a = "false" ->
     documents = removelast ext_sum_test /\
     ((length ext_sum_test <= 1)%nat -> documents = [])) /\
    (Args.quick_run a = "true" ->
     documents = firstn 10 ext_sum_test /\
     ((length ext_sum_test <= 10)%nat -> documents = ext_sum_test)).
Proof.
  intros Hp Hok Hz.
  destruct (main_worker_predicts _ _ _ _ _ _ Hok Hz)
    as (train & test & data & evs1 & evs2 & prediction & Hd & He & Hc & _).
  exists train, test, data, evs1, evs2, (py_slice test 0 (TOP_N_of a)), prediction.
  split; [exact Hd |]. split; [exact He |]. split; [exact Hc |].
  unfold TOP_N_of. rewrite (parsed_full_run a Hp). split.
  - intros Hq. rewrite Hq. simpl.
    destruct (py_slice_all_but_last test) as [H1 H2].
    split; [exact H1 |]. intros Hl.
    apply length_zero_iff_nil. rewrite H2. lia.
  - intros Hq. rewrite Hq. simpl.
    destruct (py_slice_first_ten test) as [H1 _].
    split; [exact H1 |]. intros Hl. rewrite H1. now apply firstn_all2.
Qed.

End Ranks.

Section FileWriter.
Context {ext : Externals}.

(** *** _write_list_to_file on its own *)

(** X10.  When [_write_list_to_file] returns, the file holds the items,
    each followed by a newline, whatever it held before (an empty list leaves
    an empty file), and every other file is as it was. *)
Theorem write_list_to_file_overwrites items filename o st :
  outcome (_write_list_to_file items filename) o st = Ok tt ->
  let after := files (_write_list_to_file items filename o st).1 in
  after !! filename =
    Some (fold_right (fun item rest => item +:+ newline +:+ rest) EmptyString items) /\
  (forall p, p <> filename -> after !! p = files st !! p) /\
  (items = [] -> after !! filename = Some EmptyString).
Proof.
  intros Hok. apply run_of_outcome in Hok.
  apply write_list_to_file_Ok in Hok. destruct Hok as (_ & Hf & _).
  cbv zeta. rewrite Hf, <- summary_text_items. split; [apply lookup_insert_eq |].
  split.
  - intros p Hp. apply lookup_insert_ne. congruence.
  - intros ->. apply lookup_insert_eq.
Qed.

Lemma write_items_only_writes h items : forall o st,
  exists writes,
    trace (write_items h items o st).1 = trace st ++ writes /\
    forallb is_write writes = true /\
    (length writes <= length items)%nat.
Proof.
  induction items as [| item rest IH]; intros o st; simpl.
  - exists []. rewrite app_nil_r. auto.
  - rewrite bind_unfold.
    assert (Hw : py_write h (format_line item) o st =
      match o unit (trace st) (Write h (format_line item)) with
      | Ok u =>
          (with_files (with_event st (Ev (Write h (format_line item)) (Ok u)))
             (fun fs => <[h := default EmptyString (fs !! h) +:+ format_line item]> fs),
           Ok tt)
      | Raised e => (with_event st (Ev (Write h (format_line item)) (Raised e)), Raised e)
      end).
    { cbv [py_write mbind M_bind bind do_call update_files with_files with_event].
      simpl. now destruct (o unit (trace st) (Write h (format_line item))). }
    rewrite Hw. destruct (o unit (trace st) (Write h (format_line item))) as [u | e].
    + match goal with |- context [write_items h rest o ?st1] =>
        destruct (IH o st1) as (writes & Ht & Hw' & Hl) end.
      exists (Ev (Write h (format_line item)) (Ok u) :: writes).
      split; [rewrite Ht; simpl; now rewrite <- app_assoc |].
      split; [exact Hw' | simpl; lia].
    + exists [Ev (Write h (format_line item)) (Raised e)]. simpl.
      split; [reflexivity |]. split; [reflexivity | lia].
Qed.

(** X11.  [_write_list_to_file] closes the file exactly once whenever it
    could open it, as the last thing it does, also when a write fails;
    between opening and closing it only writes, at most once per item.  When
    the file cannot be opened, nothing is written or closed, no file changes
    and the exception of [open] goes on. *)
Theorem write_list_to_file_closes_what_it_opened items filename o st :
  let evs := emitted (_write_list_to_file items filename) o st in
  (forall e, o unit (trace st) (Open filename "w") = Raised e ->
     evs = [Ev (Open filename "w") (Raised e)] /\
     outcome (_write_list_to_file items filename) o st = Raised e /\
     files (_write_list_to_file items filename o st).1 = files st) /\
  (forall u, o unit (trace st) (Open filename "w") = Ok u ->
     exists writes closing,
       evs = Ev (Open filename "w") (Ok u) :: writes ++ [Ev (Close filename) closing] /\
       forallb is_write writes = true /\
       (length writes <= length items)%nat).
Proof.
  cbv zeta.
  assert (Hrun : _write_list_to_file items filename o st =
    match o unit (trace st) (Open filename "w") with
    | Ok u =>
        finally (write_items filename items) (py_close filename) o
          (with_files (with_event st (Ev (Open filename "w") (Ok u)))
             (fun fs => <[filename := EmptyString]> fs))
    | Raised e => (with_event st (Ev (Open filename "w") (Raised e)), Raised e)
    end).
  { unfold _write_list_to_file, py_open.
    cbv [mbind M_bind bind do_call update_files ret with_files with_event].
    simpl. now destruct (o unit (trace st) (Open filename "w")). }
  split.
  - intros e He. rewrite He in Hrun. unfold outcome. rewrite Hrun. simpl.
    split; [| auto]. apply emitted_app. now rewrite Hrun.
  - intros u Hu. rewrite Hu in Hrun.
    set (st1 := with_files (with_event st (Ev (Open filename "w") (Ok u)))
                  (fun fs => <[filename := EmptyString]> fs)) in Hrun.
    destruct (write_items_only_writes filename items o st1) as (writes & Ht & Hw & Hl).
    unfold finally in Hrun.
    destruct (write_items filename items o st1) as [st2 r]; simpl in Ht.
    exists writes, (o unit (trace st2) (Close filename)).
    split; [| auto]. apply emitted_app. rewrite Hrun.
    unfold py_close, do_call.
    destruct (o unit (trace st2) (Close filename)); simpl; rewrite Ht; unfold st1; simpl;
      now rewrite <- !app_assoc.
Qed.

(** *** Import that fails *)

Lemma module_import_run o st :
  module_import o st =
  match o Z (trace st) DeviceCount with
  | Ok n =>
      ({| trace := trace st ++ [Ev DeviceCount (Ok n)]; stdout := stdout st;
          files := files st;
          environ := <["KMP_AFFINITY" := "verbose"]>
                       (<["OMP_NUM_THREADS" := pretty n]>
                          (<["NCCL_IB_DISABLE" := "0"]> (environ st))) |}, Ok tt)
  | Raised e =>
      ({| trace := trace st ++ [Ev DeviceCount (Raised e)]; stdout := stdout st;
          files := files st;
          environ := <["NCCL_IB_DISABLE" := "0"]> (environ st) |}, Raised e)
  end.
Proof.
  cbv [module_import mbind M_bind bind setenv do_call]. simpl.
  now destruct (o Z (trace st) DeviceCount).
Qed.

(** X12.  When [torch.cuda.device_count()] raises at import,
    [NCCL_IB_DISABLE] is already ["0"]; every other variable, [OMP_NUM_THREADS]
    and [KMP_AFFINITY] included, is as it was. *)
Theorem module_import_device_count_fails o st e :
  outcome module_import o st = Raised e ->
  emitted module_import o st = [Ev DeviceCount (Raised e)] /\
  let env := environ (module_import o st).1 in
  env !! "NCCL_IB_DISABLE" = Some "0" /\
  forall name, name <> "NCCL_IB_DISABLE" -> env !! name = environ st !! name.
Proof.
  pose proof (module_import_run o st) as Hrun.
  unfold outcome. intros Hr. rewrite Hrun in Hr.
  destruct (o Z (trace st) DeviceCount) as [n | e'] eqn:E; [discriminate |].
  injection Hr as ->. split.
  - apply emitted_app. now rewrite Hrun.
  - rewrite Hrun. cbv zeta. simpl. split; [apply lookup_insert_eq |].
    intros name Hn. apply lookup_insert_ne. congruence.
Qed.
End FileWriter.

Section Console.
Context {ext : Externals}.

Lemma console_grows_refl st : console_grows st st.
Proof. exists []. now rewrite app_nil_r. Qed.

Lemma console_grows_trans st1 st2 st3 :
  console_grows st1 st2 -> console_grows st2 st3 -> console_grows st1 st3.
Proof.
  intros [m1 H1] [m2 H2]. exists (m1 ++ m2). now rewrite H2, H1, app_assoc.
Qed.

Lemma console_grows_event st ev : console_grows st (with_event st ev).
Proof. exists []. simpl. now rewrite app_nil_r. Qed.

Lemma console_print fmt vals : keeps console_grows (print fmt vals).
Proof. intros o st. now exists [(fmt, vals)]. Qed.
End Console.

Ltac console_step :=
  lazymatch goal with
  | |- keeps _ (print _ _) => apply console_print
  | |- keeps _ (do_call _) => apply keeps_call, console_grows_event
  | |- keeps _ (mbind _ _) => apply keeps_bind; [apply console_grows_trans | | intros ?]
  end.

Section ScriptRun.
Context {ext : Externals}.

Lemma main_console o st :
  exists more,
    stdout (main o st).1 =
    stdout st ++
    ("NCCL_IB_DISABLE: {}", [val_of_getenv (environ st !! "NCCL_IB_DISABLE")]) :: more.
Proof.
  unfold main.
  match goal with
  | |- context [(getenv ?name ≫= ?f) o st] =>
      change ((getenv name ≫= f) o st) with (f (environ st !! name) o st)
  end.
  cbv beta.
  match goal with
  | |- context [(print ?fmt ?v ≫= ?k) o st] =>
      change ((print fmt v ≫= k) o st) with (k tt o (with_line st fmt v));
      assert (Hk : keeps console_grows (k tt)) by (cbv beta; repeat console_step);
      destruct (Hk o (with_line st fmt v)) as [more Hm]
  end.
  exists more. rewrite Hm. simpl. now rewrite <- app_assoc.
Qed.

(** X13.  Run as a script, the module level comes before [main]: when the
    import succeeds, the first line [main] prints reports [NCCL_IB_DISABLE]
    as ["0"], whatever the variable was before; when
    [torch.cuda.device_count()] raises at import, [main] does not run and
    nothing is printed. *)
Theorem script_reports_nccl_setting o st :
  (forall e, outcome module_import o st = Raised e ->
     outcome script o st = Raised e /\
     emitted script o st = [Ev DeviceCount (Raised e)] /\
     stdout (script o st).1 = stdout st) /\
  (outcome module_import o st = Ok tt ->
   exists more,
     stdout (script o st).1 =
     stdout st ++ ("NCCL_IB_DISABLE: {}", [VStr "0"]) :: more).
Proof.
  pose proof (module_import_run o st) as Hrun.
  assert (Hs : script o st =
               match module_import o st with
               | (st1, Ok _) => main o st1
               | (st1, Raised e) => (st1, Raised e)
               end) by reflexivity.
  unfold outcome. rewrite Hrun in *.
  destruct (o Z (trace st) DeviceCount) as [n | e'] eqn:E; simpl in *.
  - split; [discriminate |]. intros _. rewrite Hs.
    match goal with |- context [main o ?st1] => destruct (main_console o st1) as [more Hm] end.
    exists more. rewrite Hm. simpl.
    now rewrite !lookup_insert_ne, lookup_insert_eq by discriminate.
  - split; [| discriminate]. intros e He. injection He as ->.
    rewrite Hs. simpl. split; [reflexivity |]. split; [| reflexivity].
    apply emitted_app. now rewrite Hs.
Qed.
End ScriptRun.

Section NoDevice.
Context {ext : Externals}.

(** A run of [main] that ends normally made all its calls, [mp.spawn]
    last. *)
Lemma main_Ok o st st' :
  main o st = (st', Ok tt) ->
  exists a n p s,
    trace st' = trace st ++
    [Ev ParseArgs (Ok a);
     Ev (Makedirs (Args.output_dir a) true) (Ok tt);
     Ev (Makedirs (Args.cache_dir a) true) (Ok tt);
     Ev DeviceCount (Ok n);
     Ev (NewExtSumProcessor (Args.model_name a)) (Ok p);
     Ev (NewExtractiveSummarizer p (Args.model_name a) (Args.encoder a)
           (Args.max_pos_length a) (Args.cache_dir a)) (Ok s);
     Ev (Spawn n n s a) (Ok tt)].
Proof.
  unfold main. intros H.
  apply bind_Ok in H. destruct H as (v & st1 & H1 & H).
  unfold getenv in H1. injection H1 as <- <-.
  ok_run H.
  repeat match goal with u : unit |- _ => destruct u end.
  eexists _, _, _, _. simpl. rewrite <- !app_assoc. reflexivity.
Qed.


End NoDevice.

(* ===================================================================== *)
(** ** Further concrete runs *)
(* ===================================================================== *)

Lemma quick_run_ignores_steps_witness :
  main_worker 0 1 sample_summarizer (with_steps args_with_files (PyInt 7) (PyInt 3))
  = main_worker 0 1 sample_summarizer args_with_files.
Proof.
  apply (quick_run_ignores_steps 0 1 sample_summarizer args_with_files). reflexivity.
Defined.


Lemma global_ranks_distinct_and_in_range_witness :
  (0 = 1 <-> 0 = 0 /\ 0 = 1) /\ (0 <= 0 < 1 -> 0 <= 0 < 2).
Proof.
  assert (H1 : 0 <= 0 < 2) by lia.
  assert (H2 : 0 <= 1 < 2) by lia.
  assert (Hc1 : In ("nccl", "tcp://127.0.0.1:29501", 2, 0)
                   (init_calls (emitted (main_worker 0 2 sample_summarizer Args.defaults)
                                  oracle_ok fresh)))
    by (vm_compute; left; reflexivity).
  assert (Hc2 : In ("nccl", "tcp://127.0.0.1:29501", 2, 1)
                   (init_calls (emitted (main_worker 1 2 sample_summarizer Args.defaults)
                                  oracle_ok fresh)))
    by (vm_compute; left; reflexivity).
  exact (global_ranks_distinct_and_in_range 2 0 1 sample_summarizer sample_summarizer
           Args.defaults Args.defaults oracle_ok fresh oracle_ok fresh
           _ _ _ _ _ _ _ _ H1 H2 Hc1 Hc2).
Defined.

Lemma fit_hyperparameters_witness :
  exists kw,
    In (Ev (SummarizerFit sample_summarizer kw) (Ok tt))
       (emitted (main_worker 0 2 sample_summarizer Args.defaults) oracle_ok fresh) /\
    Fit.batch_size kw = 5 /\ Fit.num_gpus kw = 2.
Proof.
  eexists. split; [find_event |].
  match goal with
  | |- Fit.batch_size ?kw = _ /\ _ =>
      assert (Hin : In (Ev (SummarizerFit sample_summarizer kw) (Ok tt))
        (emitted (main_worker 0 2 sample_summarizer Args.defaults) oracle_ok fresh))
        by find_event;
      destruct (fit_hyperparameters 0 2 sample_summarizer Args.defaults oracle_ok fresh
                  _ _ _ Hin) as (_ & Hb & _ & Hg & _)
  end.
  split; [exact Hb | exact Hg].
Defined.

Lemma write_list_to_file_overwrites_witness :
  files (_write_list_to_file ["one"; "two"] "out.txt" oracle_ok
           {| trace := []; stdout := []; files := {["out.txt" := "old"]};
              environ := ∅ |}).1
    !! "out.txt" =
  Some (fold_right (fun item rest => item +:+ newline +:+ rest) EmptyString ["one"; "two"]).
Proof.
  assert (Hok : outcome (_write_list_to_file ["one"; "two"] "out.txt") oracle_ok
                  {| trace := []; stdout := []; files := {["out.txt" := "old"]};
                     environ := ∅ |} = Ok tt) by reflexivity.
  exact (proj1 (write_list_to_file_overwrites ["one"; "two"] "out.txt" oracle_ok _ Hok)).
Defined.

Lemma module_import_device_count_fails_witness :
  emitted module_import oracle_no_cuda fresh
  = [Ev DeviceCount (Raised (LibraryError "no CUDA"))].
Proof.
  assert (Hr : outcome module_import oracle_no_cuda fresh
               = Raised (LibraryError "no CUDA")) by reflexivity.
  exact (proj1 (module_import_device_count_fails oracle_no_cuda fresh _ Hr)).
Defined.

Lemma oracle_ok_never_raises : never_raises oracle_ok.
Proof. intros A history c. eexists. reflexivity. Qed.


Lemma small_test_sets_witness :
  exists ext_sum_test documents prediction,
    predict_calls
      (emitted (main_worker 0 1 sample_summarizer args_with_files) oracle_ok fresh)
    = [(sample_summarizer, documents, 128, Ok prediction)] /\
    documents = firstn 10 ext_sum_test.
Proof.
  assert (Hp : Args.parsed args_with_files) by (split; [now left | simpl; tauto]).
  assert (Hok : outcome (main_worker 0 1 sample_summarizer args_with_files)
                  oracle_ok fresh = Ok tt) by reflexivity.
  assert (Hz : (0 = -1 \/ 0 = 0) /\ Args.rank args_with_files = 0)
    by (split; [now right | reflexivity]).
  destruct (small_test_sets 0 1 sample_summarizer args_with_files oracle_ok fresh
              Hp Hok Hz)
    as (_ & test & _ & _ & _ & documents & prediction & _ & _ & Hc & _ & Hquick).
  exists test, documents, prediction. split; [exact Hc |]. now apply Hquick.
Defined.


(** The rank-0 worker of a run in which nothing fails opens and writes the
    summary file only. *)
Lemma own_file_operations_witness :
  In (Ev (Open "./generated_summaries.txt" "w") (Ok tt))
     (emitted (main_worker 0 1 sample_summarizer Args.defaults) oracle_ok fresh) /\
  "./generated_summaries.txt" =
    os_path_join (Args.output_dir Args.defaults) (Args.summary_filename Args.defaults) /\
  "w" = "w".
Proof.
  assert (Hin : In (Ev (Open "./generated_summaries.txt" "w") (Ok tt))
     (emitted (main_worker 0 1 sample_summarizer Args.defaults) oracle_ok fresh))
    by find_event.
  split; [exact Hin |].
  exact (proj1 (own_file_operations 0 1 sample_summarizer Args.defaults oracle_ok fresh)
           _ _ _ Hin).
Defined.
